(** * Integrated flood risk checker: the spatial risk-classification core

    A shallow embedding of [flood_checker_integrated.py]
    (class [IntegratedFloodRiskChecker]) and the properties of its
    proximity evaluator, risk classifier, likelihood estimator and
    assessment aggregator.

    Conventions of the embedding:
    - a Python [float] is an exact rational ([Q]); [==] on floats is [Qeq];
    - a Python [str] is a [string]; [a in b] on strings is [substring_in];
    - a pandas row ([Series]) is its geometry plus a finite map from
      column labels to cell texts;
    - a raised exception is the [Raise] outcome of [result];
    - the shapely geometry type is an interface ([Geometry]) with the two
      queries the code makes, [contains] and [distance]. *)

From Stdlib Require Import QArith Qround Qabs ZArith List Sorted Permutation Lia Lqa DecimalString DecimalNat.
From stdpp Require Import gmap strings.
Import ListNotations.

Local Open Scope string_scope.

(** ** Python runtime: exceptions, strings, [round], stable [list.sort] *)

Inductive exn : Type :=
| KeyError (key : string).

Inductive result (A : Type) : Type :=
| Ok (a : A)
| Raise (e : exn).

Arguments Ok {A} a.
Arguments Raise {A} e.

#[export] Instance result_ret : MRet result := fun A a => Ok a.

#[export] Instance result_bind : MBind result := fun A B k m =>
  match m with
  | Ok a => k a
  | Raise e => Raise e
  end.

(** [pat in s] for two Python strings: [pat] starts at some offset of [s]. *)
Fixpoint substring_in (pat s : string) : bool :=
  String.prefix pat s ||
  match s with
  | EmptyString => false
  | String _ s' => substring_in pat s'
  end.

(** [f"{n}"] for a non-negative [int]. *)
Definition str_of_nat (n : nat) : string :=
  NilZero.string_of_uint (Nat.to_uint n).

(** Rounding of an exact value to the nearest integer, ties to even. *)
Definition round_half_even (q : Q) : Z :=
  let f := Qfloor q in
  match (q - inject_Z f ?= 1 # 2)%Q with
  | Lt => f
  | Gt => (f + 1)%Z
  | Eq => if Z.even f then f else (f + 1)%Z
  end.

(** [round(x, 2)].  [Qred] only picks the canonical fraction, floats
    having one representation per value. *)
Definition round2 (x : Q) : Q :=
  Qred (inject_Z (round_half_even (x * 100)) / 100).

(** [l.sort(key=key)]: ascending and stable.  Elements are inserted from
    the right, each one in front of the first element whose key is not
    smaller, so that equal keys keep their order. *)
Section Sort.
Context {A : Type} (key : A -> Q).

Fixpoint insert_key (x : A) (l : list A) : list A :=
  match l with
  | [] => [x]
  | y :: l' =>
      if Qle_bool (key x) (key y) then x :: y :: l'
      else y :: insert_key x l'
  end.

Definition sort_key (l : list A) : list A :=
  fold_right insert_key [] l.

(** The order the sort establishes. *)
Definition key_le (a b : A) : Prop := (key a <= key b)%Q.
End Sort.

(** ** shapely *)

(** [Point(easting, northing)] *)
Definition point : Type := (Q * Q)%type.

Class Geometry (G : Type) : Type := {
  (** [g.contains(p)] *)
  contains : G -> point -> bool;
  (** [p.distance(g)] *)
  distance : point -> G -> Q
}.

(** What shapely guarantees of the two queries. *)
Class GeometryLaws (G : Type) `{Geometry G} : Prop := {
  distance_nonneg : forall p g, (0 <= distance p g)%Q;
  contains_distance : forall p g, contains g p = true -> (distance p g == 0)%Q
}.

(** A concrete geometry with exact rational distances: the band of land
    between two eastings (a rectangle spanning every northing).  As in
    shapely, [contains] holds in the interior only. *)
Record band : Type := Band { west : Q; east : Q }.

Definition Qlt_bool (a b : Q) : bool := negb (Qle_bool b a).

#[export] Instance band_geometry : Geometry band := {
  contains g p := Qlt_bool (west g) (fst p) && Qlt_bool (fst p) (east g);
  distance p g :=
    if Qlt_bool (fst p) (west g) then (west g - fst p)%Q
    else if Qlt_bool (east g) (fst p) then (fst p - east g)%Q
    else 0%Q
}.

(** ** Risk classifier and likelihood estimator *)

Definition _categorize_risk_from_distance (distance_meters : Q) (is_inside : bool) : string :=
  if is_inside then "HIGH"
  else if Qle_bool distance_meters 100 then "MEDIUM"
  else if Qle_bool distance_meters 500 then "LOW"
  else "VERY LOW".

Definition risk_mapping : gmap string string :=
  list_to_map
    [ ("HIGH", "Greater than 1 in 30 (3.3%)");
      ("MEDIUM", "Between 1 in 100 and 1 in 30 (1% to 3.3%)");
      ("LOW", "Between 1 in 1000 and 1 in 100 (0.1% to 1%)");
      ("VERY LOW", "Less than 1 in 1000 (0.1%)") ].

Definition _get_yearly_chance_estimate (risk_level : string) : string :=
  default "Unknown" (risk_mapping !! risk_level).

Definition _project_future_risk (current_risk : string) : string :=
  if substring_in "Greater than 1 in 30" current_risk then
    "Greater than 1 in 30 (3.3%) - increasing trend expected"
  else if substring_in "Between 1 in 100 and 1 in 30" current_risk then
    "Between 1 in 75 and 1 in 30 (1.3% to 3.3%) - higher due to climate change"
  else
    current_risk ++ " - may increase slightly due to climate change".

(** ** Proximity evaluator (with the geometry normalizer inside its loop) *)

(** One row of a [GeoDataFrame]: the geometry column and the other
    columns, by label.  Cells are modelled by their text ([str] is the
    identity on them). *)
Record row (G : Type) : Type := Row {
  row_geometry : G;
  row_attrs : gmap string string
}.

Arguments Row {G} _ _.
Arguments row_geometry {G} _.
Arguments row_attrs {G} _.

(** [label in area] *)
Definition has_column {G : Type} (label : string) (area : row G) : bool :=
  bool_decide (is_Some (row_attrs area !! label)).

(** [area[label]], which raises [KeyError] on an absent label. *)
Definition getitem {G : Type} (area : row G) (label : string) : result string :=
  match row_attrs area !! label with
  | Some v => Ok v
  | None => Raise (KeyError label)
  end.

(** [area.get(label, dflt)] *)
Definition get {G : Type} (area : row G) (label dflt : string) : string :=
  default dflt (row_attrs area !! label).

(** The [area_info] dictionary.  Its keys ['id'], ['name'] and ['source']
    are always set; ['cycle'] and ['probability'] depend on the schema. *)
Record area_info (G : Type) : Type := AreaInfo {
  distance_meters : Q;
  risk_status : string;
  geometry : G;
  area_id : string;
  area_name : string;
  source : string;
  cycle : option string;
  probability : option string
}.

Arguments AreaInfo {G} _ _ _ _ _ _ _ _.
Arguments distance_meters {G} _.
Arguments risk_status {G} _.
Arguments geometry {G} _.
Arguments area_id {G} _.
Arguments area_name {G} _.
Arguments source {G} _.
Arguments cycle {G} _.
Arguments probability {G} _.

Section Evaluator.
Context {G : Type} `{Geometry G}.

(** The distance before rounding, as the loop body computes it. *)
Definition raw_distance (p : point) (area : row G) : Q :=
  if contains (row_geometry area) p then 0%Q
  else distance p (row_geometry area).

(** The body of the loop over [data_source.iterrows()]; [n] is
    [len(results)] when the row is reached. *)
Definition area_info_of (p : point) (n : nat) (area : row G) : result (area_info G) :=
  let is_inside := contains (row_geometry area) p in
  let distance := if is_inside then 0%Q else distance p (row_geometry area) in
  let risk_status := if is_inside then "INSIDE" else "OUTSIDE" in
  let d := round2 distance in
  let g := row_geometry area in
  if has_column "fra_id" area then
    i ← getitem area "fra_id";
    nm ← getitem area "fra_name";
    src ← getitem area "flood_sour";
    Ok (AreaInfo d risk_status g i nm src (Some (get area "frr_cycle" "Unknown")) None)
  else if has_column "prob_4band" area then
    pr ← getitem area "prob_4band";
    Ok (AreaInfo d risk_status g ("Rivers_Sea_" ++ str_of_nat n)
          "Rivers and Sea Risk Area" "Rivers and Sea" None (Some pr))
  else
    Ok (AreaInfo d risk_status g ("Area_" ++ str_of_nat n)
          "Flood Risk Area" "Unknown" (Some "Unknown") None).

(** The loop: [results] is the list built so far. *)
Fixpoint iterrows (p : point) (rows : list (row G)) (results : list (area_info G))
  : result (list (area_info G)) :=
  match rows with
  | [] => Ok results
  | area :: rest =>
      info ← area_info_of p (length results) area;
      iterrows p rest (results ++ [info])
  end.

(** [coordinates] is [None] when falsy; [data_source] is [None] when
    it is [None], and [.empty] when it has no row. *)
Definition calculate_distance_to_flood_areas
    (coordinates : option point) (data_source : option (list (row G)))
  : result (list (area_info G)) :=
  match coordinates, data_source with
  | None, _ => Ok []
  | _, None => Ok []
  | _, Some [] => Ok []
  | Some p, Some rows =>
      results ← iterrows p rows [];
      Ok (sort_key distance_meters results)
  end.
End Evaluator.

(** ** Assessment aggregator *)

(** The per-category dictionaries: the placeholder with a note, or the
    five-key assessment. *)
Inductive category : Type :=
| NotAvailable (risk_level note : string)
| Assessed (risk_level yearly_chance_current yearly_chance_2040s : string)
           (closest_distance : option Q) (areas_count : nat).

Definition risk_level (c : category) : string :=
  match c with
  | NotAvailable r _ => r
  | Assessed r _ _ _ _ => r
  end.

Record assessment (G R : Type) : Type := Assessment {
  coordinates : point;
  surface_water : category;
  rivers_and_sea : category;
  reservoirs : R;
  groundwater : category;
  nearest_areas : list (area_info G)
}.

Arguments Assessment {G R} _ _ _ _ _ _.
Arguments coordinates {G R} _.
Arguments surface_water {G R} _.
Arguments rivers_and_sea {G R} _.
Arguments reservoirs {G R} _.
Arguments groundwater {G R} _.
Arguments nearest_areas {G R} _.

(** What [assess_comprehensive_flood_risk] returns: [{}] or the filled
    dictionary. *)
Inductive composite (G R : Type) : Type :=
| EmptyDict
| Filled (a : assessment G R).

Arguments EmptyDict {G R}.
Arguments Filled {G R} a.

(** The attributes of [self] the core reads or could read. *)
Record checker (G : Type) : Type := Checker {
  fra_data : option (list (row G));
  rivers_sea_data : option (list (row G))
}.

Arguments Checker {G} _ _.
Arguments fra_data {G} _.
Arguments rivers_sea_data {G} _.

Definition is_surface {G : Type} (a : area_info G) : bool :=
  substring_in "Surface Water" (source a).

Definition is_rivers {G : Type} (a : area_info G) : bool :=
  substring_in "Rivers" (source a) || substring_in "Sea" (source a).

(** The assessment of one category from its areas, nearest first. *)
Definition assess_category {G : Type} (areas : list (area_info G)) : category :=
  match areas with
  | closest :: _ =>
      let risk :=
        _categorize_risk_from_distance (distance_meters closest)
          (String.eqb (risk_status closest) "INSIDE") in
      Assessed risk
        (_get_yearly_chance_estimate risk)
        (_project_future_risk (_get_yearly_chance_estimate risk))
        (Some (distance_meters closest))
        (length areas)
  | [] =>
      Assessed "VERY LOW"
        "Less than 1 in 1000 (0.1%)"
        "Less than 1 in 1000 (0.1%) - may increase slightly"
        None 0
  end.

Section Aggregator.
Context {G : Type} `{Geometry G}.
(** The reservoir dictionary is opaque to the core; the API call is a
    function of the coordinates for the duration of one run.  The
    ['reservoirs'] placeholder of the initial dictionary is always
    overwritten by its result, so the record holds the result only. *)
Context {R : Type} (check_reservoir_risk_api : point -> R).

Definition assess_comprehensive_flood_risk
    (self : checker G) (coords : option point) : result (composite G R) :=
  match coords with
  | None => Ok EmptyDict
  | Some p =>
      let sw0 := NotAvailable "DATA NOT AVAILABLE" "Surface water data not yet integrated" in
      let rs0 := NotAvailable "DATA NOT AVAILABLE" "Processing..." in
      let gw0 := NotAvailable "DATA NOT AVAILABLE" "Requires BGS data" in
      '(sw, rs, nearest) ←
        match fra_data self with
        | Some _ =>
            all_fra_areas ← calculate_distance_to_flood_areas (Some p) (fra_data self);
            let surface_areas := List.filter is_surface all_fra_areas in
            let rivers_areas := List.filter is_rivers all_fra_areas in
            Ok (assess_category surface_areas,
                assess_category rivers_areas,
                firstn 5 all_fra_areas)
        | None => Ok (sw0, rs0, [])
        end;
      let reservoir_result := check_reservoir_risk_api p in
      Ok (Filled (Assessment p sw rs reservoir_result gw0 nearest))
  end.
End Aggregator.

Definition areas_count (c : category) : nat :=
  match c with
  | NotAvailable _ _ => 0
  | Assessed _ _ _ _ n => n
  end.

Definition closest_distance (c : category) : option Q :=
  match c with
  | NotAvailable _ _ => None
  | Assessed _ _ _ d _ => d
  end.

(** A row on which the Flood Risk Area branch finds every column it
    indexes: one with ['fra_id'] also has ['fra_name'] and ['flood_sour']. *)
Definition complete_schema {G : Type} (area : row G) : bool :=
  implb (has_column "fra_id" area)
        (has_column "fra_name" area && has_column "flood_sour" area).

(** ** Sample datasets over [band] geometries *)

(** A row of the Flood Risk Area schema. *)
Definition fra_row (w e : Q) (i nm src : string) : row band :=
  Row (Band w e) {[ "fra_id" := i; "fra_name" := nm; "flood_sour" := src ]}.

(** A row of the rivers and sea probability schema. *)
Definition prob_row (w e : Q) (pr : string) : row band :=
  Row (Band w e) {[ "prob_4band" := pr ]}.

(** A row of an unknown schema. *)
Definition bare_row (w e : Q) : row band :=
  Row (Band w e) ∅.

(** A row that has the ['fra_id'] column without ['fra_name']. *)
Definition partial_fra_row (w e : Q) : row band :=
  Row (Band w e) {[ "fra_id" := "FRA7"; "flood_sour" := "Surface Water" ]}.

(** Two surface-water bands at 5 m, in front of a nearer third one. *)
Definition equidistant_rows : list (row band) :=
  [ fra_row 0 10 "FRA1" "First" "Surface Water";
    fra_row 15 20 "FRA2" "Second" "Surface Water";
    fra_row 12 14 "FRA3" "Third" "Rivers" ].

(** Seven rows of mixed schemas. *)
Definition seven_rows : list (row band) :=
  [ fra_row 0 10 "FRA1" "A" "Surface Water"; bare_row 40 50;
    prob_row 60 70 "High"; fra_row 80 90 "FRA2" "B" "Rivers";
    bare_row 100 110; fra_row 120 130 "FRA3" "C" "Sea";
    fra_row 140 150 "FRA4" "D" "Groundwater" ].

(** A stand-in for the reservoir API. *)
Definition no_reservoir (p : point) : string := "VERY LOW".

(** ** Reading the results *)

(** The tiers by severity, for comparing two classifications. *)
Definition severity (tier : string) : nat :=
  if String.eqb tier "HIGH" then 3
  else if String.eqb tier "MEDIUM" then 2
  else if String.eqb tier "LOW" then 1
  else 0.

Definition yearly_chance_current (c : category) : option string :=
  match c with
  | NotAvailable _ _ => None
  | Assessed _ cur _ _ _ => Some cur
  end.

Definition yearly_chance_2040s (c : category) : option string :=
  match c with
  | NotAvailable _ _ => None
  | Assessed _ _ fut _ _ => Some fut
  end.

(** The distance of a result's polygon before rounding. *)
Definition raw_of {G : Type} `{Geometry G} (p : point) (info : area_info G) : Q :=
  raw_distance p (Row (geometry info) ∅).

(** ** Reservoir API *)

Module Reservoir.

(** A decoded JSON document, as [response.json()] returns it.  The
    members of an object are in insertion order, with distinct keys. *)
#[local] Set Warnings "-register-all".
Inductive json : Type :=
| JNull
| JBool (b : bool)
| JNum (q : Q)
| JStr (s : string)
| JArr (items : list json)
| JObj (members : list (string * json)).

(** What the body of the [try] statement can raise. *)
Inductive py_error : Type :=
| Timeout                        (* requests.exceptions.Timeout *)
| RequestFailed (msg : string)   (* any other exception of [requests.get] *)
| JSONDecodeError                (* [response.json()] on a body that is not JSON *)
| TypeError
| AttributeError
| MissingKey (key : string).     (* KeyError *)

Inductive attempt (A : Type) : Type :=
| Done (a : A)
| Throws (e : py_error).

Arguments Done {A} _.
Arguments Throws {A} _.

#[global] Instance attempt_ret : MRet attempt := fun A a => Done a.

#[global] Instance attempt_bind : MBind attempt := fun A B k m =>
  match m with
  | Done a => k a
  | Throws e => Throws e
  end.

(** The characters of a string. *)
Fixpoint chars (s : string) : list string :=
  match s with
  | EmptyString => []
  | String c rest => String c "" :: chars rest
  end.

Fixpoint assoc (key : string) (members : list (string * json)) : option json :=
  match members with
  | [] => None
  | (k, v) :: rest => if String.eqb key k then Some v else assoc key rest
  end.

(** [key in j]: membership in a dict, equality with an element of a
    list, containment in a string; a [TypeError] on anything else. *)
Definition py_in (key : string) (j : json) : attempt bool :=
  match j with
  | JObj members =>
      Done (match assoc key members with
            | Some _ => true
            | None => false
            end)
  | JArr items =>
      Done (existsb (fun x => match x with
                              | JStr s => String.eqb key s
                              | _ => false
                              end) items)
  | JStr s => Done (substring_in key s)
  | _ => Throws TypeError
  end.

(** [j[key]] with a string key. *)
Definition py_getitem (key : string) (j : json) : attempt json :=
  match j with
  | JObj members =>
      match assoc key members with
      | Some v => Done v
      | None => Throws (MissingKey key)
      end
  | _ => Throws TypeError
  end.

(** [j.get(key, default)]: only a dict has the method. *)
Definition py_get (key : string) (default : json) (j : json) : attempt json :=
  match j with
  | JObj members =>
      Done (match assoc key members with
            | Some v => v
            | None => default
            end)
  | _ => Throws AttributeError
  end.

(** [for x in j]: the elements of a list, the keys of a dict, the
    characters of a string. *)
Definition py_iter (j : json) : attempt (list json) :=
  match j with
  | JArr items => Done items
  | JObj members => Done (map (fun m => JStr (fst m)) members)
  | JStr s => Done (map JStr (chars s))
  | _ => Throws TypeError
  end.

(** [len(j)]. *)
Definition py_len (j : json) : attempt nat :=
  match j with
  | JArr items => Done (length items)
  | JObj members => Done (length members)
  | JStr s => Done (String.length s)
  | _ => Throws TypeError
  end.

(** The two requests of the function: the list of collections, and the
    items of one collection with [f=json], the bounding box and the limit. *)
Inductive request : Type :=
| GetCollections
| GetItems (collection_id : json) (bbox : Q * Q * Q * Q) (limit : Z).

(** A response: its status code, and its body if it decodes as JSON. *)
Record response : Type := Response {
  status_code : Z;
  body : option json
}.

(** [response.json()]. *)
Definition response_json (r : response) : attempt json :=
  match body r with
  | Some j => Done j
  | None => Throws JSONDecodeError
  end.

(** One entry of the ['reservoirs'] list. *)
Record reservoir_area : Type := ReservoirArea {
  name : json;
  type : json;
  scenario : json
}.

(** The dictionary the function returns, with the keys of its four
    [return] statements. *)
Record reservoir_dict : Type := ReservoirDict {
  risk_level : string;
  areas_count : option nat;
  reservoirs : option (list reservoir_area);
  note : option string;
  reason : option string
}.

Definition str_of_Z (z : Z) : string := NilZero.string_of_int (Z.to_int z).

(** The dictionaries of the [return] statements. *)
Definition no_coordinates : reservoir_dict :=
  ReservoirDict "UNKNOWN" None None None (Some "No coordinates provided").

Definition within_area (reservoir_areas : list reservoir_area) : reservoir_dict :=
  ReservoirDict "MEDIUM" (Some (length reservoir_areas)) (Some reservoir_areas)
    (Some "You are within a reservoir flood risk area") None.

Definition no_areas_found : reservoir_dict :=
  ReservoirDict "VERY LOW" (Some 0%nat) None
    (Some "No reservoir flood risk areas found at this location") None.

Definition data_unavailable (why : string) : reservoir_dict :=
  ReservoirDict "DATA UNAVAILABLE" None None None (Some why).

Section Api.
(** The network, for the duration of one call: what [requests.get]
    returns or raises for each request. *)
Variable requests_get : request -> attempt response.
(** [str.lower] and the [str(e)] of an exception. *)
Variable lower : string -> string.
Variable str : py_error -> string.

(** [collection.get('title', '').lower()]. *)
Definition lowered_title (collection : json) : attempt string :=
  title ← py_get "title" (JStr "") collection;
  match title with
  | JStr s => Done (lower s)
  | _ => Throws AttributeError
  end.

(** The loop that keeps the collections whose title mentions a reservoir
    or a flood. *)
Fixpoint select_collections (collections reservoir_collections : list json)
  : attempt (list json) :=
  match collections with
  | [] => Done reservoir_collections
  | collection :: rest =>
      t ← lowered_title collection;
      relevant ←
        (if substring_in "reservoir" t then Done true
         else t' ← lowered_title collection; Done (substring_in "flood" t'));
      select_collections rest
        (if relevant : bool then (reservoir_collections ++ [collection])%list
         else reservoir_collections)
  end.

(** The loop that builds one entry per feature. *)
Fixpoint collect_areas (features : list json) (reservoir_areas : list reservoir_area)
  : attempt (list reservoir_area) :=
  match features with
  | [] => Done reservoir_areas
  | feature :: rest =>
      properties ← py_get "properties" (JObj []) feature;
      n ← py_get "reservoir_name" (JStr "Unknown Reservoir") properties;
      t ← py_get "flood_type" (JStr "Reservoir Failure") properties;
      s ← py_get "scenario" (JStr "Worst Case") properties;
      collect_areas rest (reservoir_areas ++ [ReservoirArea n t s])%list
  end.

(** The query of the first relevant collection; [None] stands for
    falling through to the final [return] of the [if] branch. *)
Definition query_features (bbox : Q * Q * Q * Q) (collection_id : json)
  : attempt (option reservoir_dict) :=
  features_response ← requests_get (GetItems collection_id bbox 10);
  if (status_code features_response =? 200)%Z then
    features_data ← response_json features_response;
    present ← py_in "features" features_data;
    nonempty ←
      (if present : bool then
         fs ← py_getitem "features" features_data;
         n ← py_len fs;
         Done (0 <? n)%nat
       else Done false);
    if nonempty : bool then
      fs ← py_getitem "features" features_data;
      features ← py_iter fs;
      reservoir_areas ← collect_areas features [];
      match reservoir_areas with
      | [] => Done None
      | _ :: _ => Done (Some (within_area reservoir_areas))
      end
    else Done None
  else Done None.

(** The body of the [try] statement. *)
Definition try_body (bbox : Q * Q * Q * Q) : attempt reservoir_dict :=
  response ← requests_get GetCollections;
  if (status_code response =? 200)%Z then
    collections_data ← response_json response;
    present ← py_in "collections" collections_data;
    returned ←
      (if present : bool then
         cs ← py_getitem "collections" collections_data;
         collections ← py_iter cs;
         reservoir_collections ← select_collections collections [];
         match reservoir_collections with
         | first :: _ =>
             collection_id ← py_getitem "id" first;
             query_features bbox collection_id
         | [] => Done None
         end
       else Done None);
    match returned with
    | Some r => Done r
    | None => Done no_areas_found
    end
  else
    Done (data_unavailable ("API returned status " ++ str_of_Z (status_code response))).

Definition bbox_of (coordinates : point) : Q * Q * Q * Q :=
  let '(easting, northing) := coordinates in
  let buffer := 100%Q in
  (easting - buffer, northing - buffer, easting + buffer, northing + buffer)%Q.

Definition check_reservoir_risk_api (coordinates : option point) : reservoir_dict :=
  match coordinates with
  | None => no_coordinates
  | Some p =>
      match try_body (bbox_of p) with
      | Done r => r
      | Throws Timeout => data_unavailable "API request timed out"
      | Throws e => data_unavailable ("API error: " ++ str e)
      end
  end.
End Api.

(** An entry of the collection list on which the selection loop does not
    raise: a dict whose title, if any, is a string. *)
Definition titled (collection : json) : bool :=
  match collection with
  | JObj members =>
      match assoc "title" members with
      | Some (JStr _) | None => true
      | Some _ => false
      end
  | _ => false
  end.

(** *** Sample servers *)

(** [str.lower] on the letters A to Z. *)
Fixpoint lower_ascii (s : string) : string :=
  match s with
  | EmptyString => EmptyString
  | String c rest =>
      let n := Ascii.nat_of_ascii c in
      String (if (65 <=? n)%nat && (n <=? 90)%nat then Ascii.ascii_of_nat (n + 32) else c)
             (lower_ascii rest)
  end.

Definition error_text (e : py_error) : string :=
  match e with
  | Timeout => "timed out"
  | RequestFailed msg => msg
  | JSONDecodeError => "Expecting value"
  | TypeError => "TypeError"
  | AttributeError => "AttributeError"
  | MissingKey key => "'" ++ key ++ "'"
  end.

Definition collections_doc : json :=
  JObj [("collections",
         JArr [JObj [("id", JStr "base-maps"); ("title", JStr "Base Maps")];
               JObj [("id", JStr "reservoir-extents");
                     ("title", JStr "Reservoir Flood Extents")]])].

Definition items_doc : json :=
  JObj [("features",
         JArr [JObj [("properties", JObj [("reservoir_name", JStr "Thruscross")])];
               JObj []])].

(** A server that lists two features for every box. *)
Definition sample_server (r : request) : attempt response :=
  match r with
  | GetCollections => Done (Response 200 (Some collections_doc))
  | GetItems _ _ _ => Done (Response 200 (Some items_doc))
  end.

(** A server whose items endpoint is out of service. *)
Definition failing_items_server (r : request) : attempt response :=
  match r with
  | GetCollections => Done (Response 200 (Some collections_doc))
  | GetItems _ _ _ => Done (Response 503 None)
  end.

(** A server whose items endpoint finds nothing. *)
Definition empty_items_server (r : request) : attempt response :=
  match r with
  | GetCollections => Done (Response 200 (Some collections_doc))
  | GetItems _ _ _ => Done (Response 200 (Some (JObj [("features", JArr [])])))
  end.

(** A server that lists a collection with a null title after the
    reservoir collection. *)
Definition untitled_entry_server (r : request) : attempt response :=
  match r with
  | GetCollections =>
      Done (Response 200
              (Some (JObj [("collections",
                            JArr [JObj [("id", JStr "reservoir-extents");
                                        ("title", JStr "Reservoir Flood Extents")];
                                  JObj [("id", JStr "draft"); ("title", JNull)]])])))
  | GetItems _ _ _ => Done (Response 200 (Some items_doc))
  end.

End Reservoir.

(** ** Postcode lookup *)

(** [j == 200] for a decoded JSON value. *)
Definition equals_200 (j : Reservoir.json) : bool :=
  match j with
  | Reservoir.JNum q => Qeq_bool q 200
  | _ => false
  end.

Section Lookup.
(** What [requests.get] returns or raises for a URL. *)
Variable requests_get : string -> Reservoir.attempt Reservoir.response.
(** [postcode.strip().upper().replace(" ", "")]. *)
Variable normalize : string -> string.

(** The coordinates are returned as the service gives them. *)
Definition postcode_to_coordinates (postcode : string)
  : option (Reservoir.json * Reservoir.json) :=
  let postcode := normalize postcode in
  let url := "https://api.postcodes.io/postcodes/" ++ postcode in
  match
    (response ← requests_get url;
     if (Reservoir.status_code response =? 200)%Z then
       data ← Reservoir.response_json response;
       status ← Reservoir.py_getitem "status" data;
       if equals_200 status then
         result ← Reservoir.py_getitem "result" data;
         easting ← Reservoir.py_getitem "eastings" result;
         northing ← Reservoir.py_getitem "northings" result;
         Reservoir.Done (Some (easting, northing))
       else Reservoir.Done None
     else Reservoir.Done None)
  with
  | Reservoir.Done r => r
  | Reservoir.Throws _ => None
  end.
End Lookup.

(** A lookup service that knows one postcode, and one without a grid
    reference. *)
Definition sample_lookup (url : string) : Reservoir.attempt Reservoir.response :=
  if String.eqb url "https://api.postcodes.io/postcodes/LS208HL" then
    Reservoir.Done
      (Reservoir.Response 200
         (Some (Reservoir.JObj
                  [("status", Reservoir.JNum 200);
                   ("result", Reservoir.JObj [("eastings", Reservoir.JNum 419000);
                                              ("northings", Reservoir.JNum 444000)])])))
  else if String.eqb url "https://api.postcodes.io/postcodes/JE11AA" then
    Reservoir.Done
      (Reservoir.Response 200
         (Some (Reservoir.JObj
                  [("status", Reservoir.JNum 200);
                   ("result", Reservoir.JObj [("eastings", Reservoir.JNull);
                                              ("northings", Reservoir.JNull)])])))
  else
    Reservoir.Done
      (Reservoir.Response 404
         (Some (Reservoir.JObj [("status", Reservoir.JNum 404);
                                ("error", Reservoir.JStr "Invalid postcode")]))).

(** * Properties *)

(** ** Strings *)

Lemma append_cons (c : Ascii.ascii) (a b : string) :
  String c a ++ b = String c (a ++ b).
Proof. reflexivity. Qed.

Lemma prefix_split (pat s : string) :
  String.prefix pat s = true <-> exists b, s = pat ++ b.
Proof.
  revert s. induction pat as [|c pat IH]; intros s.
  - split; [intros _; exists s; reflexivity | intros _; destruct s; reflexivity].
  - destruct s as [|c' s]; simpl.
    + split; [discriminate | intros [b Hb]; rewrite append_cons in Hb; discriminate].
    + destruct (Ascii.ascii_dec c c') as [->|Hne].
      * rewrite IH. split; intros [b Hb]; exists b; rewrite append_cons in *; congruence.
      * split; [discriminate | intros [b Hb]; rewrite append_cons in Hb; congruence].
Qed.

(** [substring_in] is Python's [in]: the pattern occurs somewhere. *)
Lemma substring_in_split (pat s : string) :
  substring_in pat s = true <-> exists a b, s = a ++ pat ++ b.
Proof.
  induction s as [|c s IH].
  - change (substring_in pat "") with (String.prefix pat "" || false).
    rewrite orb_true_iff, prefix_split. split.
    + intros [[b Hb]|Hf]; [exists "", b; exact Hb | discriminate].
    + intros [a [b Hab]]. left.
      destruct a; [exists b; exact Hab | rewrite append_cons in Hab; discriminate].
  - change (substring_in pat (String c s))
      with (String.prefix pat (String c s) || substring_in pat s).
    rewrite orb_true_iff, prefix_split, IH. split.
    + intros [[b Hb]|[a [b Hab]]].
      * exists "", b. exact Hb.
      * exists (String c a), b. rewrite append_cons. congruence.
    + intros [a [b Hab]]. destruct a as [|c' a].
      * left. exists b. exact Hab.
      * right. exists a, b. rewrite append_cons in Hab. congruence.
Qed.

(** ** Rounding *)

Lemma round_half_even_floor (q : Q) : (Qfloor q <= round_half_even q)%Z.
Proof.
  unfold round_half_even.
  destruct (q - inject_Z (Qfloor q) ?= 1 # 2)%Q; [destruct (Z.even _) | |]; lia.
Qed.

Lemma round2_eq (x : Q) :
  (round2 x == inject_Z (round_half_even (x * 100)) / 100)%Q.
Proof. unfold round2. apply Qred_correct. Qed.

Lemma round2_nonneg (x : Q) : (0 <= x)%Q -> (0 <= round2 x)%Q.
Proof.
  intros Hx. rewrite round2_eq.
  assert (Hf : (0 <= Qfloor (x * 100))%Z).
  { change 0%Z with (Qfloor 0). apply Qfloor_resp_le.
    apply Qmult_le_0_compat; [exact Hx | discriminate]. }
  pose proof (round_half_even_floor (x * 100)) as Hr.
  apply Qle_shift_div_l; [reflexivity |].
  rewrite Qmult_0_l. change 0%Q with (inject_Z 0). rewrite <- Zle_Qle. lia.
Qed.

Lemma round2_zero : round2 0 = 0%Q.
Proof. reflexivity. Qed.

(** ** The stable sort *)

Section SortFacts.
Context {A : Type} (key : A -> Q).

Lemma insert_key_perm (x : A) (l : list A) :
  Permutation (x :: l) (insert_key key x l).
Proof.
  induction l as [|y l IH]; simpl; [reflexivity |].
  destruct (Qle_bool (key x) (key y)); [reflexivity |].
  rewrite perm_swap. constructor. exact IH.
Qed.

Lemma sort_key_perm (l : list A) : Permutation l (sort_key key l).
Proof.
  induction l as [|x l IH]; simpl; [reflexivity |].
  rewrite <- insert_key_perm. constructor. exact IH.
Qed.

Lemma sort_key_length (l : list A) : length (sort_key key l) = length l.
Proof. symmetry. apply Permutation_length, sort_key_perm. Qed.

Lemma insert_key_sorted (x : A) (l : list A) :
  StronglySorted (key_le key) l -> StronglySorted (key_le key) (insert_key key x l).
Proof.
  induction 1 as [|y l Hs IH Hy]; simpl.
  - repeat constructor.
  - destruct (Qle_bool (key x) (key y)) eqn:E.
    + apply Qle_bool_iff in E. constructor; [constructor; assumption |].
      constructor; [exact E |].
      eapply Forall_impl; [exact Hy |]. intros z Hz. unfold key_le in *.
      eapply Qle_trans; eassumption.
    + constructor; [exact IH |].
      assert (Hyx : key_le key y x).
      { unfold key_le. destruct (Qlt_le_dec (key x) (key y)) as [Hlt|Hle]; [| exact Hle].
        apply Qlt_le_weak, Qle_bool_iff in Hlt. congruence. }
      eapply Permutation_Forall; [apply insert_key_perm |].
      constructor; assumption.
Qed.

Lemma sort_key_sorted (l : list A) : StronglySorted (key_le key) (sort_key key l).
Proof.
  induction l as [|x l IH]; simpl; [constructor | apply insert_key_sorted, IH].
Qed.

(** Among the elements of one key value, sorting changes nothing. *)
Lemma insert_key_stable (d : Q) (x : A) (l : list A) :
  List.filter (fun a => Qeq_bool (key a) d) (insert_key key x l)
  = List.filter (fun a => Qeq_bool (key a) d) (x :: l).
Proof.
  induction l as [|y l IH]; [reflexivity |].
  simpl insert_key. destruct (Qle_bool (key x) (key y)) eqn:E; [reflexivity |].
  simpl in *. rewrite IH.
  destruct (Qeq_bool (key x) d) eqn:Ex; [| reflexivity].
  destruct (Qeq_bool (key y) d) eqn:Ey; [| reflexivity].
  apply Qeq_bool_iff in Ex, Ey.
  assert (Hle : Qle_bool (key x) (key y) = true).
  { apply Qle_bool_iff. rewrite Ex, Ey. apply Qle_refl. }
  congruence.
Qed.

Lemma sort_key_stable (d : Q) (l : list A) :
  List.filter (fun a => Qeq_bool (key a) d) (sort_key key l)
  = List.filter (fun a => Qeq_bool (key a) d) l.
Proof.
  induction l as [|x l IH]; [reflexivity |].
  simpl sort_key. rewrite insert_key_stable. simpl. rewrite IH. reflexivity.
Qed.
End SortFacts.

(** ** The loop body and the loop *)

Section EvaluatorFacts.
Context {G : Type} `{Geometry G}.

Lemma has_column_getitem (label : string) (area : row G) :
  has_column label area = true -> exists v, getitem area label = Ok v.
Proof.
  unfold has_column, getitem. intros Hc. apply bool_decide_eq_true in Hc.
  destruct Hc as [v Hv]. exists v. rewrite Hv. reflexivity.
Qed.

Lemma has_column_false (label : string) (area : row G) :
  has_column label area = false -> getitem area label = Raise (KeyError label).
Proof.
  unfold has_column, getitem. intros Hc. apply bool_decide_eq_false in Hc.
  destruct (row_attrs area !! label) eqn:E; [| reflexivity].
  exfalso. apply Hc. eexists. reflexivity.
Qed.

(** The three keys every branch of the loop body sets the same way. *)
Lemma area_info_of_fields (p : point) (n : nat) (area : row G) (info : area_info G) :
  area_info_of p n area = Ok info ->
  distance_meters info = round2 (raw_distance p area)
  /\ risk_status info = (if contains (row_geometry area) p then "INSIDE" else "OUTSIDE")
  /\ geometry info = row_geometry area.
Proof.
  unfold area_info_of, raw_distance. intros Hi.
  destruct (has_column "fra_id" area).
  - destruct (getitem area "fra_id"); [| discriminate].
    destruct (getitem area "fra_name"); [| discriminate].
    destruct (getitem area "flood_sour"); [| discriminate].
    injection Hi as <-. auto.
  - destruct (has_column "prob_4band" area).
    + destruct (getitem area "prob_4band"); [| discriminate].
      injection Hi as <-. auto.
    + injection Hi as <-. auto.
Qed.

(** The loop body returns on every row of a complete schema. *)
Lemma area_info_of_total (p : point) (n : nat) (area : row G) :
  complete_schema area = true -> exists info, area_info_of p n area = Ok info.
Proof.
  unfold complete_schema, area_info_of. intros Hc.
  destruct (has_column "fra_id" area) eqn:E1.
  - simpl in Hc. apply andb_true_iff in Hc as [E2 E3].
    destruct (has_column_getitem _ _ E1) as [v1 ->].
    destruct (has_column_getitem _ _ E2) as [v2 ->].
    destruct (has_column_getitem _ _ E3) as [v3 ->].
    eexists. reflexivity.
  - destruct (has_column "prob_4band" area) eqn:E2.
    + destruct (has_column_getitem _ _ E2) as [v ->]. eexists. reflexivity.
    + eexists. reflexivity.
Qed.

(** The loop appends one dictionary per row, in row order, each built
    with the length of the list at that moment. *)
Lemma iterrows_spec (p : point) (rows : list (row G)) :
  forall (acc out : list (area_info G)),
    iterrows p rows acc = Ok out ->
    exists new,
      out = (acc ++ new)%list
      /\ length new = length rows
      /\ forall i area, rows !! i = Some area ->
           exists info, new !! i = Some info
                        /\ area_info_of p (length acc + i) area = Ok info.
Proof.
  induction rows as [|area rest IH]; intros acc out Hrun; simpl in Hrun.
  - injection Hrun as <-. exists []. rewrite app_nil_r.
    repeat split; intros i a Hi; discriminate.
  - destruct (area_info_of p (length acc) area) as [info|e] eqn:E; [| discriminate].
    apply IH in Hrun as (new & -> & Hlen & Hnew).
    exists (info :: new). rewrite <- app_assoc. simpl.
    repeat split; [congruence |].
    intros [|i] a Hi; simpl in Hi.
    + injection Hi as <-. exists info. rewrite Nat.add_0_r. auto.
    + destruct (Hnew i a Hi) as (info' & Hl & Hinfo).
      exists info'. split; [exact Hl |].
      rewrite length_app in Hinfo. simpl in Hinfo.
      replace (length acc + S i)%nat with (length acc + 1 + i)%nat by lia.
      exact Hinfo.
Qed.

Lemma iterrows_total (p : point) (rows : list (row G)) :
  forallb complete_schema rows = true ->
  forall acc, exists out, iterrows p rows acc = Ok out.
Proof.
  induction rows as [|area rest IH]; intros Hc acc; simpl.
  - eexists. reflexivity.
  - simpl in Hc. apply andb_true_iff in Hc as [Ha Hrest].
    destruct (area_info_of_total p (length acc) area Ha) as [info ->].
    apply IH, Hrest.
Qed.

(** The evaluator sorts what the loop built. *)
Lemma calculate_some (p : point) (rows : list (row G)) :
  calculate_distance_to_flood_areas (Some p) (Some rows)
  = results ← iterrows p rows []; Ok (sort_key distance_meters results).
Proof. destruct rows; reflexivity. Qed.

Lemma calculate_total (p : point) (rows : list (row G)) :
  forallb complete_schema rows = true ->
  exists out, calculate_distance_to_flood_areas (Some p) (Some rows) = Ok out.
Proof.
  intros Hc. rewrite calculate_some.
  destruct (iterrows_total p rows Hc []) as [pre ->]. eexists. reflexivity.
Qed.

Lemma calculate_sorted (p : point) (rows : list (row G)) (out : list (area_info G)) :
  calculate_distance_to_flood_areas (Some p) (Some rows) = Ok out ->
  StronglySorted (key_le distance_meters) out.
Proof.
  rewrite calculate_some. destruct (iterrows p rows []); [| discriminate].
  intros [= <-]. apply sort_key_sorted.
Qed.

Lemma calculate_length (p : point) (rows : list (row G)) (out : list (area_info G)) :
  calculate_distance_to_flood_areas (Some p) (Some rows) = Ok out ->
  length out = length rows.
Proof.
  rewrite calculate_some. destruct (iterrows p rows []) as [pre|] eqn:E; [| discriminate].
  intros [= <-]. rewrite sort_key_length.
  apply iterrows_spec in E as (new & -> & Hlen & _). exact Hlen.
Qed.

(** Each dictionary of the output comes from a row of the dataset and
    carries the rounded distance to it. *)
Lemma calculate_elements (p : point) (rows : list (row G)) (out : list (area_info G)) :
  calculate_distance_to_flood_areas (Some p) (Some rows) = Ok out ->
  forall info, In info out ->
    exists area, In area rows
      /\ geometry info = row_geometry area
      /\ distance_meters info = round2 (raw_distance p area)
      /\ risk_status info = (if contains (row_geometry area) p then "INSIDE" else "OUTSIDE").
Proof.
  rewrite calculate_some. destruct (iterrows p rows []) as [pre|] eqn:E; [| discriminate].
  intros [= <-] info Hin.
  apply iterrows_spec in E as (new & -> & Hlen & Hnew). simpl in Hin.
  eapply Permutation_in in Hin; [| symmetry; apply sort_key_perm].
  apply list_elem_of_In, list_elem_of_lookup in Hin as [i Hi].
  assert (Hlt : (i < length rows)%nat).
  { rewrite <- Hlen. eapply lookup_lt_Some, Hi. }
  destruct (lookup_lt_is_Some_2 rows i Hlt) as [area Ha].
  destruct (Hnew i area Ha) as (info' & Hl & Hinfo).
  assert (info' = info) by congruence. subst info'.
  apply area_info_of_fields in Hinfo as (Hd & Hs & Hg).
  exists area. repeat split; try assumption.
  apply list_elem_of_In. eapply list_elem_of_lookup_2, Ha.
Qed.
End EvaluatorFacts.

(** ** The band geometry obeys the laws of shapely *)

Lemma Qlt_bool_iff (a b : Q) : Qlt_bool a b = true <-> (a < b)%Q.
Proof.
  unfold Qlt_bool. rewrite negb_true_iff. split.
  - intros Hf. apply Qnot_le_lt. intros Hle. apply Qle_bool_iff in Hle. congruence.
  - intros Hlt. destruct (Qle_bool b a) eqn:E; [| reflexivity].
    apply Qle_bool_iff in E. exfalso. eapply Qlt_not_le; eassumption.
Qed.

#[export] Instance band_laws : GeometryLaws band.
Proof.
  split.
  - intros [x y] [w e]. simpl.
    destruct (Qlt_bool x w) eqn:E1; [| destruct (Qlt_bool e x) eqn:E2].
    + apply Qlt_bool_iff in E1. unfold Qminus. rewrite <- Qle_minus_iff.
      apply Qlt_le_weak, E1.
    + apply Qlt_bool_iff in E2. unfold Qminus. rewrite <- Qle_minus_iff.
      apply Qlt_le_weak, E2.
    + apply Qle_refl.
  - intros [x y] [w e]. simpl. intros Hc.
    apply andb_true_iff in Hc as [H1 H2]. apply Qlt_bool_iff in H1, H2.
    destruct (Qlt_bool x w) eqn:E1; [| destruct (Qlt_bool e x) eqn:E2].
    + apply Qlt_bool_iff in E1. exfalso. eapply Qlt_irrefl, Qlt_trans; eassumption.
    + apply Qlt_bool_iff in E2. exfalso. eapply Qlt_irrefl, Qlt_trans; eassumption.
    + reflexivity.
Qed.

(** ** Distances and containment in the evaluator's output *)

Section DistanceFacts.
Context {G : Type} `{GeometryLaws G}.

Lemma raw_distance_nonneg (p : point) (area : row G) : (0 <= raw_distance p area)%Q.
Proof.
  unfold raw_distance. destruct (contains _ _); [apply Qle_refl | apply distance_nonneg].
Qed.

(** No reported distance is negative, and a dictionary flagged INSIDE
    reports the distance 0. *)
Lemma distance_meters_nonneg (p : point) (rows : list (row G)) (out : list (area_info G)) :
  calculate_distance_to_flood_areas (Some p) (Some rows) = Ok out ->
  forall info, In info out ->
    (0 <= distance_meters info)%Q
    /\ (risk_status info = "INSIDE" -> distance_meters info = 0%Q).
Proof.
  intros Hrun info Hin.
  destruct (calculate_elements p rows out Hrun info Hin) as (area & _ & _ & Hd & Hs).
  rewrite Hd. split; [apply round2_nonneg, raw_distance_nonneg |].
  rewrite Hs. unfold raw_distance.
  destruct (contains _ _); [reflexivity | discriminate].
Qed.
End DistanceFacts.

(** ** The aggregator, case by case *)

Section AggregatorFacts.
Context {G : Type} `{Geometry G} {R : Type} (api : point -> R).

Lemma assess_absent (self : checker G) :
  assess_comprehensive_flood_risk api self None = Ok EmptyDict.
Proof. reflexivity. Qed.

Lemma assess_missing (self : checker G) (p : point) :
  fra_data self = None ->
  assess_comprehensive_flood_risk api self (Some p)
  = Ok (Filled (Assessment p
          (NotAvailable "DATA NOT AVAILABLE" "Surface water data not yet integrated")
          (NotAvailable "DATA NOT AVAILABLE" "Processing...")
          (api p)
          (NotAvailable "DATA NOT AVAILABLE" "Requires BGS data")
          [])).
Proof. intros Hd. unfold assess_comprehensive_flood_risk. rewrite Hd. reflexivity. Qed.

Lemma assess_loaded (self : checker G) (p : point) (rows : list (row G)) :
  fra_data self = Some rows ->
  assess_comprehensive_flood_risk api self (Some p)
  = all ← calculate_distance_to_flood_areas (Some p) (Some rows);
    Ok (Filled (Assessment p
          (assess_category (List.filter is_surface all))
          (assess_category (List.filter is_rivers all))
          (api p)
          (NotAvailable "DATA NOT AVAILABLE" "Requires BGS data")
          (firstn 5 all))).
Proof.
  intros Hd. unfold assess_comprehensive_flood_risk. rewrite Hd.
  destruct (calculate_distance_to_flood_areas (Some p) (Some rows)); reflexivity.
Qed.

(** A filled dictionary over a loaded dataset exposes the evaluator's
    output it was built from. *)
Lemma assess_loaded_inv (self : checker G) (p : point) (rows : list (row G))
      (a : assessment G R) :
  fra_data self = Some rows ->
  assess_comprehensive_flood_risk api self (Some p) = Ok (Filled a) ->
  exists all,
    calculate_distance_to_flood_areas (Some p) (Some rows) = Ok all
    /\ surface_water a = assess_category (List.filter is_surface all)
    /\ rivers_and_sea a = assess_category (List.filter is_rivers all)
    /\ nearest_areas a = firstn 5 all.
Proof.
  intros Hd. rewrite (assess_loaded self p rows Hd).
  destruct (calculate_distance_to_flood_areas (Some p) (Some rows)) as [all|e];
    [| discriminate].
  intros [= <-]. exists all. auto.
Qed.

(** The empty dictionary is returned for an absent point and for nothing else. *)
Lemma assess_empty_iff (self : checker G) (coords : option point) :
  assess_comprehensive_flood_risk api self coords = Ok EmptyDict <-> coords = None.
Proof.
  split; [| intros ->; reflexivity].
  destruct coords as [p|]; [| reflexivity].
  destruct (fra_data self) as [rows|] eqn:Hd.
  - rewrite (assess_loaded self p rows Hd).
    destruct (calculate_distance_to_flood_areas _ _); discriminate.
  - rewrite (assess_missing self p Hd). discriminate.
Qed.
End AggregatorFacts.

(** The evaluator returns the empty list on an absent point, an absent
    dataset and a dataset without rows. *)
Lemma calculate_degenerate {G : Type} `{Geometry G}
      (coords : option point) (data_source : option (list (row G))) :
  coords = None \/ data_source = None \/ data_source = Some [] ->
  calculate_distance_to_flood_areas coords data_source = Ok [].
Proof.
  intros [-> | [-> | ->]]; [reflexivity | |]; destruct coords; reflexivity.
Qed.

(** * The claims *)

(** ** Risk classifier *)

(** C1: the classifier is the threshold ladder: a true containment flag
    gives HIGH; otherwise a distance of at most 100 gives MEDIUM; otherwise
    a distance of at most 500 gives LOW; otherwise VERY LOW.  Both
    thresholds are inclusive: 100.00 m is MEDIUM, 100.01 m is LOW, 500.00 m
    is LOW and 500.01 m is VERY LOW. *)
Theorem C1_risk_ladder (d : Q) (inside : bool) :
  (inside = true -> _categorize_risk_from_distance d inside = "HIGH")
  /\ (inside = false -> (d <= 100)%Q ->
      _categorize_risk_from_distance d inside = "MEDIUM")
  /\ (inside = false -> (100 < d)%Q -> (d <= 500)%Q ->
      _categorize_risk_from_distance d inside = "LOW")
  /\ (inside = false -> (500 < d)%Q ->
      _categorize_risk_from_distance d inside = "VERY LOW")
  /\ _categorize_risk_from_distance 100.00 false = "MEDIUM"
  /\ _categorize_risk_from_distance 100.01 false = "LOW"
  /\ _categorize_risk_from_distance 500.00 false = "LOW"
  /\ _categorize_risk_from_distance 500.01 false = "VERY LOW".
Proof.
  assert (Hle : forall a b : Q, (a <= b)%Q -> Qle_bool a b = true).
  { intros a b. apply Qle_bool_iff. }
  assert (Hgt : forall a b : Q, (b < a)%Q -> Qle_bool a b = false).
  { intros a b Hlt. destruct (Qle_bool a b) eqn:E; [| reflexivity].
    apply Qle_bool_iff in E. exfalso. eapply Qlt_not_le; eassumption. }
  unfold _categorize_risk_from_distance.
  repeat split; try reflexivity.
  - intros ->. reflexivity.
  - intros -> H100. rewrite (Hle _ _ H100). reflexivity.
  - intros -> H100 H500. rewrite (Hgt _ _ H100), (Hle _ _ H500). reflexivity.
  - intros -> H500. rewrite (Hgt d 100%Q), (Hgt _ _ H500); [reflexivity |].
    eapply Qlt_trans; [| exact H500]. reflexivity.
Qed.

Lemma C1_risk_ladder_witness :
  _categorize_risk_from_distance 250 false = "LOW".
Proof.
  destruct (C1_risk_ladder 250 false) as (_ & _ & Hlow & _).
  apply Hlow; [reflexivity | reflexivity | discriminate].
Defined.

(** ** Likelihood estimator *)

(** Every band the estimator returns holds at most one of the two
    patterns the projection looks for, so on the strings the program
    passes to the projection the order of its cases does not matter. *)
Lemma bands_hold_one_pattern (risk : string) :
  substring_in "Greater than 1 in 30" (_get_yearly_chance_estimate risk) = true ->
  substring_in "Between 1 in 100 and 1 in 30" (_get_yearly_chance_estimate risk) = false.
Proof.
  unfold _get_yearly_chance_estimate, risk_mapping. simpl list_to_map.
  destruct (decide (risk = "HIGH")) as [-> | H1]; [intros _; vm_compute; reflexivity |].
  destruct (decide (risk = "MEDIUM")) as [-> | H2]; [vm_compute; discriminate |].
  destruct (decide (risk = "LOW")) as [-> | H3]; [vm_compute; discriminate |].
  destruct (decide (risk = "VERY LOW")) as [-> | H4]; [vm_compute; discriminate |].
  rewrite !lookup_insert_ne by congruence. rewrite lookup_empty.
  vm_compute. discriminate.
Qed.

(** C7: the projection is a function of the present-day band string
    alone, decided by substring tests and not by the tier, the cases
    being taken in the order the claim lists them.  A string that holds
    the HIGH pattern maps to the HIGH band with the increasing-trend note;
    one that holds the MEDIUM pattern (and was not taken by the HIGH case)
    maps to the narrowed band with the climate-change note; any other
    string maps to itself with the "may increase slightly" note
    appended. *)
Theorem C7_future_projection (s : string) :
  let high := exists a b, s = a ++ "Greater than 1 in 30" ++ b in
  let medium := exists a b, s = a ++ "Between 1 in 100 and 1 in 30" ++ b in
  (high ->
   _project_future_risk s = "Greater than 1 in 30 (3.3%) - increasing trend expected")
  /\ (~ high -> medium ->
      _project_future_risk s
      = "Between 1 in 75 and 1 in 30 (1.3% to 3.3%) - higher due to climate change")
  /\ (~ high -> ~ medium ->
      _project_future_risk s = s ++ " - may increase slightly due to climate change").
Proof.
  intros high medium. subst high medium. unfold _project_future_risk.
  rewrite <- !substring_in_split.
  destruct (substring_in "Greater than 1 in 30" s);
    destruct (substring_in "Between 1 in 100 and 1 in 30" s);
    repeat split; intros; try reflexivity; try congruence; exfalso; auto.
Qed.

Lemma C7_future_projection_witness :
  _project_future_risk "Less than 1 in 1000 (0.1%)"
  = "Less than 1 in 1000 (0.1%) - may increase slightly due to climate change".
Proof.
  destruct (C7_future_projection "Less than 1 in 1000 (0.1%)") as (_ & _ & Hother).
  apply Hother; rewrite <- substring_in_split; vm_compute; discriminate.
Defined.

(** ** Proximity evaluator *)

(** Two elements picked by a filter, in this order, stand in the same
    order in the filtered list. *)
Lemma filter_keeps_order {A : Type} (f : A -> bool) (a b : A) (l1 l2 l3 : list A) :
  f a = true -> f b = true ->
  exists m1 m2 m3,
    List.filter f (l1 ++ a :: l2 ++ b :: l3) = (m1 ++ a :: m2 ++ b :: m3)%list.
Proof.
  intros Ha Hb. exists (List.filter f l1), (List.filter f l2), (List.filter f l3).
  rewrite List.filter_app. simpl. rewrite Ha, List.filter_app. simpl. rewrite Hb.
  reflexivity.
Qed.

(** What a filter yields in some order, the list holds in that order. *)
Lemma filter_reflects_order {A : Type} (f : A -> bool) (a b : A) (l : list A) :
  forall m1 m2 m3,
    List.filter f l = (m1 ++ a :: m2 ++ b :: m3)%list ->
    exists l1 l2 l3, l = (l1 ++ a :: l2 ++ b :: l3)%list.
Proof.
  assert (Hone : forall (l : list A) (x : A) (m r : list A),
             List.filter f l = (m ++ x :: r)%list ->
             exists l1 l2, l = (l1 ++ x :: l2)%list /\ List.filter f l2 = r).
  { clear. induction l as [|y l IH]; intros x m r Hf; simpl in Hf.
    - destruct m; discriminate.
    - destruct (f y).
      + destruct m as [|z m]; simpl in Hf.
        * injection Hf as -> Hr. exists [], l. auto.
        * injection Hf as -> Hr. destruct (IH _ _ _ Hr) as (l1 & l2 & -> & H2).
          exists (z :: l1), l2. auto.
      + destruct (IH _ _ _ Hf) as (l1 & l2 & -> & H2).
        exists (y :: l1), l2. auto. }
  intros m1 m2 m3 Hf.
  destruct (Hone _ _ _ _ Hf) as (l1 & r & -> & Hr).
  destruct (Hone _ _ _ _ Hr) as (l2 & l3 & -> & _).
  exists l1, l2, l3. reflexivity.
Qed.

(** C4: the evaluator's output is sorted ascending by distance, and it is
    a stable rearrangement of the per-row results in row order: the
    results of any one distance are the same sequence before and after the
    sort, so two results of equal distance keep the relative order of
    their rows. *)
Theorem C4_sorted_stable
    {G : Type} `{Geometry G} (p : point) (rows : list (row G)) (out : list (area_info G)) :
  calculate_distance_to_flood_areas (Some p) (Some rows) = Ok out ->
  StronglySorted (fun a b => (distance_meters a <= distance_meters b)%Q) out
  /\ exists pre,
       iterrows p rows [] = Ok pre
       /\ length pre = length rows
       /\ (forall i area, rows !! i = Some area ->
             exists info, pre !! i = Some info
                          /\ geometry info = row_geometry area
                          /\ distance_meters info = round2 (raw_distance p area))
       /\ Permutation pre out
       /\ (forall d,
             List.filter (fun a => Qeq_bool (distance_meters a) d) out
             = List.filter (fun a => Qeq_bool (distance_meters a) d) pre)
       /\ (forall a b l1 l2 l3,
             pre = (l1 ++ a :: l2 ++ b :: l3)%list ->
             (distance_meters a == distance_meters b)%Q ->
             exists m1 m2 m3, out = (m1 ++ a :: m2 ++ b :: m3)%list).
Proof.
  intros Hrun. split; [exact (calculate_sorted p rows out Hrun) |].
  rewrite calculate_some in Hrun.
  destruct (iterrows p rows []) as [pre|] eqn:E; [| discriminate].
  injection Hrun as <-. exists pre.
  pose proof (iterrows_spec p rows [] pre E) as (new & Hnew & Hlen & Hrows).
  simpl in Hnew. subst new.
  repeat split.
  - exact Hlen.
  - intros i area Hi. destruct (Hrows i area Hi) as (info & Hl & Hinfo).
    apply area_info_of_fields in Hinfo as (Hd & _ & Hg). exists info. auto.
  - apply sort_key_perm.
  - intros d. apply sort_key_stable.
  - intros a b l1 l2 l3 -> Hab.
    pose proof (sort_key_stable distance_meters (distance_meters b)
                  (l1 ++ a :: l2 ++ b :: l3)) as Hst.
    destruct (filter_keeps_order
                (fun x => Qeq_bool (distance_meters x) (distance_meters b))
                a b l1 l2 l3) as (m1 & m2 & m3 & Hm).
    + apply Qeq_bool_iff, Hab.
    + apply Qeq_bool_iff. reflexivity.
    + rewrite Hm in Hst. eapply filter_reflects_order, Hst.
Qed.

Lemma C4_sorted_stable_witness :
  exists out,
    calculate_distance_to_flood_areas (Some (15, 0)%Q) (Some equidistant_rows) = Ok out
    /\ map area_id out = ["FRA2"; "FRA3"; "FRA1"]
    /\ StronglySorted (fun a b => (distance_meters a <= distance_meters b)%Q) out.
Proof.
  eexists. split; [vm_compute; reflexivity |]. split; [reflexivity |].
  apply (C4_sorted_stable (15, 0)%Q equidistant_rows). vm_compute. reflexivity.
Defined.

(** C2, at the failing input: a point 0.004 m east of a band, and a point
    on its boundary, are both reported with distance 0 and the status
    OUTSIDE, so a zero distance does not imply containment. *)
Theorem C2_zero_distance_outside :
  calculate_distance_to_flood_areas (Some (10.004, 5)%Q)
    (Some [fra_row 0 10 "FRA1" "Thames" "Surface Water"])
  = Ok [AreaInfo 0 "OUTSIDE" (Band 0 10) "FRA1" "Thames" "Surface Water"
          (Some "Unknown") None]
  /\ raw_distance (10.004, 5)%Q (fra_row 0 10 "FRA1" "Thames" "Surface Water") = 0.004%Q
  /\ calculate_distance_to_flood_areas (Some (10, 5)%Q)
       (Some [fra_row 0 10 "FRA1" "Thames" "Surface Water"])
     = Ok [AreaInfo 0 "OUTSIDE" (Band 0 10) "FRA1" "Thames" "Surface Water"
             (Some "Unknown") None].
Proof. repeat split; vm_compute; reflexivity. Qed.

(** C3, as stated, fails on both counts.  A surface-water band 100.004 m
    away is classified by its rounded distance (MEDIUM), not by the
    distance itself (LOW); and two bands 0.004 m and 0.001 m away stay in
    row order, the rounded distances being equal. *)
Lemma C3_counterexample :
  ~ (forall (p : point) (w e : Q) (a : assessment band string),
       assess_comprehensive_flood_risk no_reservoir
         (Checker (Some [fra_row w e "FRA1" "Thames" "Surface Water"]) None) (Some p)
       = Ok (Filled a) ->
       risk_level (surface_water a)
       = _categorize_risk_from_distance
           (raw_distance p (fra_row w e "FRA1" "Thames" "Surface Water"))
           (contains (Band w e) p))
  /\ ~ (forall (p : point) (rows : list (row band)) (out : list (area_info band)),
          calculate_distance_to_flood_areas (Some p) (Some rows) = Ok out ->
          StronglySorted
            (fun a b => (raw_distance p (Row (geometry a) ∅)
                         <= raw_distance p (Row (geometry b) ∅))%Q) out).
Proof.
  split.
  - intros Hall.
    specialize (Hall (110.004, 5)%Q 0%Q 10%Q _ eq_refl).
    vm_compute in Hall. discriminate Hall.
  - intros Hall.
    specialize (Hall (10.004, 5)%Q
                  [fra_row 0 10 "FRA1" "Near" "Surface Water";
                   fra_row 0 10.003 "FRA2" "Nearer" "Surface Water"] _ eq_refl).
    apply StronglySorted_inv in Hall as [_ Hall].
    apply Forall_cons_1 in Hall as [Hle _].
    vm_compute in Hle. apply Hle. reflexivity.
Qed.

(** C3, amended: every distance is rounded to 2 decimal places when its
    result is built, and the comparisons use the rounded value: the output
    is sorted ascending by the rounded distance, and the tier of each
    category is the classifier's answer on the rounded distance of that
    category's first area. *)
Theorem C3_rounded_comparisons
    {G : Type} `{Geometry G} {R : Type} (api : point -> R)
    (self : checker G) (p : point) (rows : list (row G)) (a : assessment G R) :
  fra_data self = Some rows ->
  assess_comprehensive_flood_risk api self (Some p) = Ok (Filled a) ->
  exists all,
    calculate_distance_to_flood_areas (Some p) (Some rows) = Ok all
    /\ (forall info, In info all ->
          exists area, In area rows
            /\ geometry info = row_geometry area
            /\ distance_meters info = round2 (raw_distance p area))
    /\ StronglySorted (fun x y => (distance_meters x <= distance_meters y)%Q) all
    /\ (forall c rest, List.filter is_surface all = c :: rest ->
          exists area, In area rows
            /\ geometry c = row_geometry area
            /\ risk_level (surface_water a)
               = _categorize_risk_from_distance (round2 (raw_distance p area))
                   (contains (row_geometry area) p))
    /\ (forall c rest, List.filter is_rivers all = c :: rest ->
          exists area, In area rows
            /\ geometry c = row_geometry area
            /\ risk_level (rivers_and_sea a)
               = _categorize_risk_from_distance (round2 (raw_distance p area))
                   (contains (row_geometry area) p)).
Proof.
  intros Hd Hrun.
  destruct (assess_loaded_inv api self p rows a Hd Hrun) as (all & Hall & Hsw & Hrs & _).
  exists all. split; [exact Hall |].
  pose proof (calculate_elements p rows all Hall) as Hel.
  assert (Htier : forall (f : area_info G -> bool) c rest,
             List.filter f all = c :: rest ->
             exists area, In area rows
               /\ geometry c = row_geometry area
               /\ risk_level (assess_category (List.filter f all))
                  = _categorize_risk_from_distance (round2 (raw_distance p area))
                      (contains (row_geometry area) p)).
  { intros f c rest Hf.
    assert (Hin : In c all).
    { apply (proj1 (List.filter_In f c all)). rewrite Hf. left. reflexivity. }
    destruct (Hel c Hin) as (area & Ha & Hg & Hdist & Hst).
    exists area. repeat split; try assumption.
    rewrite Hf. simpl. rewrite Hdist, Hst.
    destruct (contains (row_geometry area) p); reflexivity. }
  repeat split.
  - intros info Hin. destruct (Hel info Hin) as (area & Ha & Hg & Hdist & _).
    exists area. auto.
  - exact (calculate_sorted p rows all Hall).
  - intros c rest Hf. rewrite Hsw. exact (Htier _ c rest Hf).
  - intros c rest Hf. rewrite Hrs. exact (Htier _ c rest Hf).
Qed.

Lemma C3_rounded_comparisons_witness :
  exists all,
    calculate_distance_to_flood_areas (Some (110.004, 5)%Q)
      (Some [fra_row 0 10 "FRA1" "Thames" "Surface Water"]) = Ok all
    /\ map distance_meters all = [100%Q].
Proof.
  destruct (C3_rounded_comparisons no_reservoir
              (Checker (Some [fra_row 0 10 "FRA1" "Thames" "Surface Water"]) None)
              (110.004, 5)%Q [fra_row 0 10 "FRA1" "Thames" "Surface Water"]
              (Assessment (110.004, 5)%Q
                 (Assessed "MEDIUM" "Between 1 in 100 and 1 in 30 (1% to 3.3%)"
                    "Between 1 in 75 and 1 in 30 (1.3% to 3.3%) - higher due to climate change"
                    (Some 100%Q) 1)
                 (Assessed "VERY LOW" "Less than 1 in 1000 (0.1%)"
                    "Less than 1 in 1000 (0.1%) - may increase slightly" None 0)
                 "VERY LOW"
                 (NotAvailable "DATA NOT AVAILABLE" "Requires BGS data")
                 [AreaInfo 100 "OUTSIDE" (Band 0 10) "FRA1" "Thames" "Surface Water"
                    (Some "Unknown") None])
              eq_refl) as (all & Hall & _).
  - vm_compute. reflexivity.
  - exists all. split; [exact Hall |].
    vm_compute in Hall. injection Hall as <-. reflexivity.
Defined.

(** ** Assessment aggregator *)

(** C5, as stated, fails: a dataset whose only row is of an unknown schema
    belongs to neither category, yet its result is in the nearest-areas
    list, which is then longer than the two categories together. *)
Lemma C5_counterexample :
  ~ (forall (p : point) (rows : list (row band)) (a : assessment band string),
       assess_comprehensive_flood_risk no_reservoir (Checker (Some rows) None) (Some p)
       = Ok (Filled a) ->
       length (nearest_areas a)
       = Nat.min 5 (areas_count (surface_water a) + areas_count (rivers_and_sea a)))
  /\ ~ (forall (p : point) (rows : list (row band)) (a : assessment band string)
               (all : list (area_info band)),
          assess_comprehensive_flood_risk no_reservoir (Checker (Some rows) None) (Some p)
          = Ok (Filled a) ->
          calculate_distance_to_flood_areas (Some p) (Some rows) = Ok all ->
          nearest_areas a
          = firstn 5 (sort_key distance_meters
                        (List.filter is_surface all ++ List.filter is_rivers all)%list)).
Proof.
  split; intros Hall.
  - specialize (Hall (20, 5)%Q [bare_row 0 10] _ eq_refl). discriminate Hall.
  - specialize (Hall (20, 5)%Q [bare_row 0 10] _ _ eq_refl eq_refl). discriminate Hall.
Qed.

(** C5, amended: over a loaded dataset the nearest-areas list is the first
    5 results of the evaluator's whole output for that dataset, whatever
    their source labels; it is sorted ascending by distance and its length
    is min(5, number of rows of the dataset). *)
Theorem C5_nearest_areas_head
    {G : Type} `{Geometry G} {R : Type} (api : point -> R)
    (self : checker G) (p : point) (rows : list (row G)) (a : assessment G R) :
  fra_data self = Some rows ->
  assess_comprehensive_flood_risk api self (Some p) = Ok (Filled a) ->
  exists all,
    calculate_distance_to_flood_areas (Some p) (Some rows) = Ok all
    /\ nearest_areas a = firstn 5 all
    /\ length (nearest_areas a) = Nat.min 5 (length rows)
    /\ StronglySorted (fun x y => (distance_meters x <= distance_meters y)%Q)
         (nearest_areas a).
Proof.
  intros Hd Hrun.
  destruct (assess_loaded_inv api self p rows a Hd Hrun) as (all & Hall & _ & _ & Hn).
  exists all. rewrite Hn. repeat split; [exact Hall | |].
  - rewrite length_firstn, (calculate_length p rows all Hall). reflexivity.
  - pose proof (calculate_sorted p rows all Hall) as Hs.
    rewrite <- (firstn_skipn 5 all) in Hs.
    clear -Hs. induction (firstn 5 all) as [|x l IH]; [constructor |].
    simpl in Hs. apply StronglySorted_inv in Hs as [Hl Hx].
    constructor; [exact (IH Hl) |].
    apply Forall_app in Hx as [Hx _]. exact Hx.
Qed.

Lemma C5_nearest_areas_head_witness :
  exists a : assessment band string,
    assess_comprehensive_flood_risk no_reservoir (Checker (Some seven_rows) None)
      (Some (20, 0)%Q) = Ok (Filled a)
    /\ length (nearest_areas a) = 5%nat.
Proof.
  eexists. split; [vm_compute; reflexivity |].
  destruct (C5_nearest_areas_head no_reservoir (Checker (Some seven_rows) None)
              (20, 0)%Q seven_rows _ eq_refl eq_refl) as (all & _ & _ & Hlen & _).
  exact Hlen.
Defined.

(** C6, as stated, fails: with the dataset missing the evaluator has no
    area for either category, yet neither category gets the no-data
    default; both keep the placeholder of the initial dictionary. *)
Lemma C6_counterexample :
  ~ (forall (self : checker band) (p : point) (a : assessment band string)
            (all : list (area_info band)),
       assess_comprehensive_flood_risk no_reservoir self (Some p) = Ok (Filled a) ->
       calculate_distance_to_flood_areas (Some p) (fra_data self) = Ok all ->
       List.filter is_surface all = [] ->
       surface_water a
       = Assessed "VERY LOW" "Less than 1 in 1000 (0.1%)"
           "Less than 1 in 1000 (0.1%) - may increase slightly" None 0).
Proof.
  intros Hall.
  specialize (Hall (Checker None None) (20, 5)%Q _ [] eq_refl eq_refl eq_refl).
  discriminate Hall.
Qed.

(** C6, amended: for a present point and a loaded dataset (one without
    rows included), a category without matching areas gets the fixed
    no-data default: VERY LOW, the less-than-1-in-1000 band for the present
    and the future, no nearest distance, zero areas.  With the dataset
    missing, both categories keep the DATA NOT AVAILABLE placeholder. *)
Theorem C6_no_data_defaults
    {G : Type} `{Geometry G} {R : Type} (api : point -> R)
    (self : checker G) (p : point) (a : assessment G R) :
  assess_comprehensive_flood_risk api self (Some p) = Ok (Filled a) ->
  let no_data :=
    Assessed "VERY LOW" "Less than 1 in 1000 (0.1%)"
      "Less than 1 in 1000 (0.1%) - may increase slightly" None 0 in
  match fra_data self with
  | Some rows =>
      exists all,
        calculate_distance_to_flood_areas (Some p) (Some rows) = Ok all
        /\ (rows = [] -> all = [])
        /\ (List.filter is_surface all = [] -> surface_water a = no_data)
        /\ (List.filter is_rivers all = [] -> rivers_and_sea a = no_data)
  | None =>
      surface_water a
      = NotAvailable "DATA NOT AVAILABLE" "Surface water data not yet integrated"
      /\ rivers_and_sea a = NotAvailable "DATA NOT AVAILABLE" "Processing..."
  end.
Proof.
  intros Hrun no_data. destruct (fra_data self) as [rows|] eqn:Hd.
  - destruct (assess_loaded_inv api self p rows a Hd Hrun) as (all & Hall & Hsw & Hrs & _).
    exists all. repeat split.
    + exact Hall.
    + intros ->. simpl in Hall. congruence.
    + intros Hf. rewrite Hsw, Hf. reflexivity.
    + intros Hf. rewrite Hrs, Hf. reflexivity.
  - rewrite (assess_missing api self p Hd) in Hrun.
    injection Hrun as <-. split; reflexivity.
Qed.

Lemma C6_no_data_defaults_witness :
  exists a : assessment band string,
    assess_comprehensive_flood_risk no_reservoir (Checker (Some []) None)
      (Some (20, 0)%Q) = Ok (Filled a)
    /\ surface_water a
       = Assessed "VERY LOW" "Less than 1 in 1000 (0.1%)"
           "Less than 1 in 1000 (0.1%) - may increase slightly" None 0.
Proof.
  eexists. split; [vm_compute; reflexivity |].
  destruct (C6_no_data_defaults no_reservoir (Checker (Some []) None)
              (20, 0)%Q _ eq_refl) as (all & Hall & _ & Hsw & _).
  apply Hsw. simpl in Hall. injection Hall as <-. reflexivity.
Defined.

(** ** Error behaviour *)

(** The three schema matchers in their order, on rows where the first one
    finds its columns: Flood Risk Area fields used directly; else the
    probability band, with the positional identifier; else the fallback. *)
Lemma area_info_of_priority
    {G : Type} `{Geometry G} (p : point) (n : nat) (area : row G) (info : area_info G) :
  area_info_of p n area = Ok info ->
  (has_column "fra_id" area = true ->
     row_attrs area !! "fra_id" = Some (area_id info)
     /\ row_attrs area !! "fra_name" = Some (area_name info)
     /\ row_attrs area !! "flood_sour" = Some (source info)
     /\ cycle info = Some (get area "frr_cycle" "Unknown"))
  /\ (has_column "fra_id" area = false -> has_column "prob_4band" area = true ->
        area_id info = "Rivers_Sea_" ++ str_of_nat n
        /\ source info = "Rivers and Sea"
        /\ row_attrs area !! "prob_4band" = probability info)
  /\ (has_column "fra_id" area = false -> has_column "prob_4band" area = false ->
        area_id info = "Area_" ++ str_of_nat n
        /\ area_name info = "Flood Risk Area"
        /\ source info = "Unknown").
Proof.
  unfold area_info_of, getitem. intros Hi.
  destruct (has_column "fra_id" area).
  - destruct (row_attrs area !! "fra_id"); [| discriminate].
    destruct (row_attrs area !! "fra_name"); [| discriminate].
    destruct (row_attrs area !! "flood_sour"); [| discriminate].
    injection Hi as <-. repeat split; intros; try discriminate; reflexivity.
  - destruct (has_column "prob_4band" area).
    + destruct (row_attrs area !! "prob_4band"); [| discriminate].
      injection Hi as <-. repeat split; intros; try discriminate; reflexivity.
    + injection Hi as <-. repeat split; intros; try discriminate; reflexivity.
Qed.

(** C8, at the failing input: on a dataset whose row has the ['fra_id']
    column without ['fra_name'], the evaluator and the aggregator raise
    [KeyError]. *)
Theorem C8_core_raises :
  calculate_distance_to_flood_areas (Some (20, 5)%Q) (Some [partial_fra_row 0 10])
  = Raise (KeyError "fra_name")
  /\ assess_comprehensive_flood_risk no_reservoir
       (Checker (Some [partial_fra_row 0 10]) None) (Some (20, 5)%Q)
     = Raise (KeyError "fra_name").
Proof. split; vm_compute; reflexivity. Qed.

(** C9, at the failing input: the first matcher accepts a row on its
    ['fra_id'] column alone and then indexes ['fra_name'], so
    normalization of a row without that column raises [KeyError] and
    yields no record. *)
Theorem C9_normalizer_partial :
  has_column "fra_id" (partial_fra_row 0 10) = true
  /\ has_column "fra_name" (partial_fra_row 0 10) = false
  /\ area_info_of (20, 5)%Q 0 (partial_fra_row 0 10) = Raise (KeyError "fra_name").
Proof. repeat split; vm_compute; reflexivity. Qed.

(** ** Independence of the secondary dataset *)

(** C10: the composite assessment does not depend on the rivers/sea
    dataset: two checkers with the same Flood Risk Area data give the same
    result on the same point and reservoir answer, whatever their
    rivers/sea datasets hold. *)
Theorem C10_rivers_sea_irrelevant
    {G : Type} `{Geometry G} {R : Type} (api : point -> R)
    (self1 self2 : checker G) (coords : option point) :
  fra_data self1 = fra_data self2 ->
  assess_comprehensive_flood_risk api self1 coords
  = assess_comprehensive_flood_risk api self2 coords.
Proof.
  intros Hd. unfold assess_comprehensive_flood_risk. rewrite Hd. reflexivity.
Qed.

Lemma C10_rivers_sea_irrelevant_witness :
  assess_comprehensive_flood_risk no_reservoir
    (Checker (Some equidistant_rows) None) (Some (15, 0)%Q)
  = assess_comprehensive_flood_risk no_reservoir
      (Checker (Some equidistant_rows) (Some [prob_row 14 16 "High"])) (Some (15, 0)%Q).
Proof.
  apply (C10_rivers_sea_irrelevant no_reservoir
           (Checker (Some equidistant_rows) None)
           (Checker (Some equidistant_rows) (Some [prob_row 14 16 "High"]))).
  reflexivity.
Defined.

(** * Further properties of the code *)

(** ** Rounding *)

Lemma round_half_even_error (q : Q) :
  (Qabs (inject_Z (round_half_even q) - q) <= 1 # 2)%Q.
Proof.
  pose proof (Qfloor_le q) as Hlo. pose proof (Qlt_floor q) as Hhi.
  rewrite inject_Z_plus in Hhi. change (inject_Z 1) with 1%Q in Hhi.
  unfold round_half_even.
  destruct (q - inject_Z (Qfloor q) ?= 1 # 2)%Q eqn:E.
  - apply Qeq_alt in E.
    destruct (Z.even (Qfloor q)); apply Qabs_Qle_condition.
    + split; lra.
    + rewrite inject_Z_plus. change (inject_Z 1) with 1%Q. split; lra.
  - apply Qlt_alt in E. apply Qabs_Qle_condition. split; lra.
  - apply Qgt_alt in E. apply Qabs_Qle_condition.
    rewrite inject_Z_plus. change (inject_Z 1) with 1%Q. split; lra.
Qed.

(** [round(x, 2)] is within half a hundredth of [x]. *)
Lemma round2_error (x : Q) : (Qabs (round2 x - x) <= 1 # 200)%Q.
Proof.
  rewrite round2_eq. pose proof (round_half_even_error (x * 100)) as He.
  apply Qabs_Qle_condition in He as [H1 H2].
  apply Qabs_Qle_condition.
  set (n := inject_Z (round_half_even (x * 100))) in *.
  unfold Qdiv. change (/ 100)%Q with (1 # 100)%Q. split; lra.
Qed.

(** Rounding does not cross a whole number of hundredths. *)
Lemma round2_le_hundredths (x : Q) (k : Z) :
  (x <= inject_Z k / 100)%Q -> (round2 x <= inject_Z k / 100)%Q.
Proof.
  intros Hx. rewrite round2_eq.
  pose proof (round_half_even_error (x * 100)) as He.
  apply Qabs_Qle_condition in He as [_ H2].
  assert (Hlt : (inject_Z (round_half_even (x * 100)) < inject_Z (k + 1))%Q).
  { rewrite inject_Z_plus. change (inject_Z 1) with 1%Q.
    unfold Qdiv in Hx. change (/ 100)%Q with (1 # 100)%Q in Hx. lra. }
  rewrite <- Zlt_Qlt in Hlt.
  assert (Hle : (inject_Z (round_half_even (x * 100)) <= inject_Z k)%Q).
  { rewrite <- Zle_Qle. lia. }
  unfold Qdiv. change (/ 100)%Q with (1 # 100)%Q. lra.
Qed.

Lemma round2_gt_hundredths (x : Q) (k : Z) :
  (inject_Z k / 100 + (1 # 200) < x)%Q -> (inject_Z k / 100 < round2 x)%Q.
Proof.
  intros Hx. rewrite round2_eq.
  pose proof (round_half_even_error (x * 100)) as He.
  apply Qabs_Qle_condition in He as [H1 _].
  assert (Hlt : (inject_Z k < inject_Z (round_half_even (x * 100)))%Q).
  { unfold Qdiv in Hx. change (/ 100)%Q with (1 # 100)%Q in Hx. lra. }
  unfold Qdiv. change (/ 100)%Q with (1 # 100)%Q. lra.
Qed.

(** ** Classifier and likelihood estimator *)

Lemma Qle_bool_false (a b : Q) : Qle_bool a b = false <-> (b < a)%Q.
Proof.
  split.
  - intros Hf. apply Qnot_le_lt. intros Hle. apply Qle_bool_iff in Hle. congruence.
  - intros Hlt. destruct (Qle_bool a b) eqn:E; [| reflexivity].
    apply Qle_bool_iff in E. lra.
Qed.

Lemma Qle_bool_eq_r (a b c : Q) : (b == c)%Q -> Qle_bool a b = Qle_bool a c.
Proof.
  intros Hbc. destruct (Qle_bool a c) eqn:E.
  - apply Qle_bool_iff in E. apply Qle_bool_iff. rewrite Hbc. exact E.
  - apply Qle_bool_false in E. apply Qle_bool_false. rewrite Hbc. exact E.
Qed.

(** A nearer area never gets a lower tier than a farther one, and an
    area that contains the point never gets a lower tier than one that
    does not. *)
Theorem categorize_monotone (d1 d2 : Q) (inside : bool) :
  (d1 <= d2)%Q ->
  severity (_categorize_risk_from_distance d2 false)
  <= severity (_categorize_risk_from_distance d1 inside).
Proof.
  intros Hle. unfold _categorize_risk_from_distance.
  destruct inside.
  - destruct (Qle_bool d2 100); [| destruct (Qle_bool d2 500)]; vm_compute; lia.
  - destruct (Qle_bool d1 100) eqn:E1.
    + destruct (Qle_bool d2 100); [| destruct (Qle_bool d2 500)]; vm_compute; lia.
    + apply Qle_bool_false in E1.
      assert (E2 : Qle_bool d2 100 = false) by (apply Qle_bool_false; lra).
      rewrite E2. destruct (Qle_bool d1 500) eqn:E3.
      * destruct (Qle_bool d2 500); vm_compute; lia.
      * apply Qle_bool_false in E3.
        assert (E4 : Qle_bool d2 500 = false) by (apply Qle_bool_false; lra).
        rewrite E4. vm_compute; lia.
Qed.

Lemma categorize_monotone_witness :
  severity (_categorize_risk_from_distance 600 false)
  <= severity (_categorize_risk_from_distance 75 false).
Proof. apply (categorize_monotone 75 600 false). discriminate. Defined.

(** Classifying the rounded distance gives the tier of the distance
    itself, except for a distance up to half a centimetre above a
    threshold, which rounds down onto it. *)
Theorem rounded_tier_window (x : Q) (inside : bool) :
  ~ (100 < x <= 100.005)%Q ->
  ~ (500 < x <= 500.005)%Q ->
  _categorize_risk_from_distance (round2 x) inside
  = _categorize_risk_from_distance x inside.
Proof.
  intros H100 H500.
  assert (Hkeep : forall k : Z,
             ~ (inject_Z k / 100 < x <= inject_Z k / 100 + (1 # 200))%Q ->
             Qle_bool (round2 x) (inject_Z k / 100) = Qle_bool x (inject_Z k / 100)).
  { intros k Hk. destruct (Qle_bool x (inject_Z k / 100)) eqn:E.
    - apply Qle_bool_iff. apply round2_le_hundredths. apply Qle_bool_iff, E.
    - apply Qle_bool_false in E. apply Qle_bool_false.
      apply round2_gt_hundredths.
      destruct (Qlt_le_dec (inject_Z k / 100 + (1 # 200)) x) as [Hlt|Hle];
        [exact Hlt | exfalso; apply Hk; split; assumption]. }
  assert (E100 : Qle_bool (round2 x) 100 = Qle_bool x 100).
  { assert (Hq : (inject_Z 10000 / 100 == 100)%Q) by reflexivity.
    assert (Hq' : (inject_Z 10000 / 100 + (1 # 200) == 100.005)%Q) by reflexivity.
    rewrite <- (Qle_bool_eq_r (round2 x) _ _ Hq), <- (Qle_bool_eq_r x _ _ Hq).
    apply Hkeep. intros [Hl Hr]. apply H100.
    rewrite Hq in Hl. rewrite Hq' in Hr. split; assumption. }
  assert (E500 : Qle_bool (round2 x) 500 = Qle_bool x 500).
  { assert (Hq : (inject_Z 50000 / 100 == 500)%Q) by reflexivity.
    assert (Hq' : (inject_Z 50000 / 100 + (1 # 200) == 500.005)%Q) by reflexivity.
    rewrite <- (Qle_bool_eq_r (round2 x) _ _ Hq), <- (Qle_bool_eq_r x _ _ Hq).
    apply Hkeep. intros [Hl Hr]. apply H500.
    rewrite Hq in Hl. rewrite Hq' in Hr. split; assumption. }
  unfold _categorize_risk_from_distance. rewrite E100, E500. reflexivity.
Qed.

Lemma rounded_tier_window_witness :
  _categorize_risk_from_distance (round2 100.006) false
  = _categorize_risk_from_distance 100.006 false.
Proof.
  apply (rounded_tier_window 100.006 false).
  - intros [_ H]. apply H. reflexivity.
  - intros [H _]. apply Qlt_not_le in H. apply H. discriminate.
Defined.

(** Rounding never lowers the tier. *)
Theorem rounding_never_lowers_tier (x : Q) (inside : bool) :
  severity (_categorize_risk_from_distance x inside)
  <= severity (_categorize_risk_from_distance (round2 x) inside).
Proof.
  unfold _categorize_risk_from_distance. destruct inside; [vm_compute; lia |].
  assert (H100 : Qle_bool x 100 = true -> Qle_bool (round2 x) 100 = true).
  { intros E. apply Qle_bool_iff in E. apply Qle_bool_iff.
    assert (Hq : (inject_Z 10000 / 100 == 100)%Q) by reflexivity.
    rewrite <- Hq. apply round2_le_hundredths. rewrite Hq. exact E. }
  assert (H500 : Qle_bool x 500 = true -> Qle_bool (round2 x) 500 = true).
  { intros E. apply Qle_bool_iff in E. apply Qle_bool_iff.
    assert (Hq : (inject_Z 50000 / 100 == 500)%Q) by reflexivity.
    rewrite <- Hq. apply round2_le_hundredths. rewrite Hq. exact E. }
  destruct (Qle_bool x 100) eqn:E1.
  - rewrite (H100 eq_refl). vm_compute; lia.
  - destruct (Qle_bool x 500) eqn:E2.
    + rewrite (H500 eq_refl). destruct (Qle_bool (round2 x) 100); vm_compute; lia.
    + destruct (Qle_bool (round2 x) 100); [| destruct (Qle_bool (round2 x) 500)];
        vm_compute; lia.
Qed.

(** From a distance and a containment flag, the tier, the present-day
    band and the future band are one of the four rows of the table; the
    band is never the ["Unknown"] default of the lookup. *)
Theorem likelihood_pipeline (d : Q) (inside : bool) :
  let tier := _categorize_risk_from_distance d inside in
  let current := _get_yearly_chance_estimate tier in
  let future := _project_future_risk current in
  (tier = "HIGH"
   /\ current = "Greater than 1 in 30 (3.3%)"
   /\ future = "Greater than 1 in 30 (3.3%) - increasing trend expected")
  \/ (tier = "MEDIUM"
      /\ current = "Between 1 in 100 and 1 in 30 (1% to 3.3%)"
      /\ future = "Between 1 in 75 and 1 in 30 (1.3% to 3.3%) - higher due to climate change")
  \/ (tier = "LOW"
      /\ current = "Between 1 in 1000 and 1 in 100 (0.1% to 1%)"
      /\ future = "Between 1 in 1000 and 1 in 100 (0.1% to 1%) - may increase slightly due to climate change")
  \/ (tier = "VERY LOW"
      /\ current = "Less than 1 in 1000 (0.1%)"
      /\ future = "Less than 1 in 1000 (0.1%) - may increase slightly due to climate change").
Proof.
  unfold _categorize_risk_from_distance.
  destruct inside; [| destruct (Qle_bool d 100); [| destruct (Qle_bool d 500)]];
    cbv zeta.
  - left. repeat split; reflexivity.
  - right; left. repeat split; reflexivity.
  - right; right; left. repeat split; reflexivity.
  - right; right; right. repeat split; reflexivity.
Qed.

(** A risk level outside the four tiers has the band ["Unknown"], which
    the projection passes through with the slight-increase note. *)
Theorem yearly_chance_unknown (risk : string) :
  risk <> "HIGH" -> risk <> "MEDIUM" -> risk <> "LOW" -> risk <> "VERY LOW" ->
  _get_yearly_chance_estimate risk = "Unknown"
  /\ _project_future_risk (_get_yearly_chance_estimate risk)
     = "Unknown - may increase slightly due to climate change".
Proof.
  intros H1 H2 H3 H4.
  assert (Hu : _get_yearly_chance_estimate risk = "Unknown").
  { unfold _get_yearly_chance_estimate, risk_mapping. simpl list_to_map.
    rewrite !lookup_insert_ne by congruence. rewrite lookup_empty. reflexivity. }
  rewrite Hu. split; reflexivity.
Qed.

Lemma yearly_chance_unknown_witness :
  _get_yearly_chance_estimate "DATA NOT AVAILABLE" = "Unknown".
Proof.
  apply (yearly_chance_unknown "DATA NOT AVAILABLE"); discriminate.
Defined.

(** ** Proximity evaluator: accuracy, order, completeness, failures *)

Lemma to_uint_nonnil (n : nat) : Nat.to_uint n <> Decimal.Nil.
Proof.
  pose proof (Unsigned.to_of (Nat.to_uint n)) as Hu.
  rewrite Unsigned.of_to in Hu. rewrite Hu. apply DecimalFacts.unorm_nonnil.
Qed.

Lemma str_of_nat_inj (i j : nat) : str_of_nat i = str_of_nat j -> i = j.
Proof.
  unfold str_of_nat. intros Hs.
  apply Unsigned.to_uint_inj.
  pose proof (NilZero.usu (Nat.to_uint i) (to_uint_nonnil i)) as Hi.
  pose proof (NilZero.usu (Nat.to_uint j) (to_uint_nonnil j)) as Hj.
  rewrite Hs in Hi. congruence.
Qed.

Lemma raw_of_row {G : Type} `{Geometry G} (p : point) (area : row G) (info : area_info G) :
  geometry info = row_geometry area -> raw_of p info = raw_distance p area.
Proof. unfold raw_of, raw_distance. simpl. intros ->. reflexivity. Qed.

Lemma distance_meters_error
    {G : Type} `{Geometry G} (p : point) (rows : list (row G))
    (out : list (area_info G)) (info : area_info G) :
  calculate_distance_to_flood_areas (Some p) (Some rows) = Ok out ->
  In info out ->
  (Qabs (distance_meters info - raw_of p info) <= 0.005)%Q.
Proof.
  intros Hrun Hin.
  destruct (calculate_elements p rows out Hrun info Hin) as (area & _ & Hg & Hd & _).
  rewrite (raw_of_row p area info Hg), Hd.
  eapply Qle_trans; [apply round2_error | discriminate].
Qed.

(** Every reported distance is within a centimetre of the distance to
    the result's own polygon and is 0 when that polygon contains the
    point, and the status is INSIDE exactly when it does. *)
Theorem reported_distance_accuracy
    {G : Type} `{Geometry G} (p : point) (rows : list (row G))
    (out : list (area_info G)) (info : area_info G) :
  calculate_distance_to_flood_areas (Some p) (Some rows) = Ok out ->
  In info out ->
  (Qabs (distance_meters info - raw_of p info) <= 0.01)%Q
  /\ (contains (geometry info) p = true -> distance_meters info = 0%Q)
  /\ (risk_status info = "INSIDE" <-> contains (geometry info) p = true).
Proof.
  intros Hrun Hin.
  pose proof (distance_meters_error p rows out info Hrun Hin) as Herr.
  destruct (calculate_elements p rows out Hrun info Hin) as (area & _ & Hg & Hd & Hs).
  split; [eapply Qle_trans; [exact Herr | discriminate] |].
  rewrite Hd, Hs, Hg. split; [| split].
  - unfold raw_distance. intros ->. reflexivity.
  - destruct (contains (row_geometry area) p); [reflexivity | discriminate].
  - intros ->. reflexivity.
Qed.

Lemma reported_distance_accuracy_witness :
  exists info,
    calculate_distance_to_flood_areas (Some (110.004, 5)%Q)
      (Some [fra_row 0 10 "FRA1" "Thames" "Surface Water"]) = Ok [info]
    /\ (Qabs (distance_meters info - raw_of (110.004, 5)%Q info) <= 0.01)%Q.
Proof.
  eexists. split; [vm_compute; reflexivity |].
  eapply (reported_distance_accuracy (110.004, 5)%Q
            [fra_row 0 10 "FRA1" "Thames" "Surface Water"]).
  - vm_compute. reflexivity.
  - left. reflexivity.
Defined.

(** The output order is the order of the true distances up to one
    centimetre: a result listed before another is at most 0.01 m farther. *)
Theorem order_within_centimetre
    {G : Type} `{Geometry G} (p : point) (rows : list (row G))
    (out l1 l2 l3 : list (area_info G)) (a b : area_info G) :
  calculate_distance_to_flood_areas (Some p) (Some rows) = Ok out ->
  out = (l1 ++ a :: l2 ++ b :: l3)%list ->
  (raw_of p a <= raw_of p b + 0.01)%Q.
Proof.
  intros Hrun Hout.
  pose proof (calculate_sorted p rows out Hrun) as Hs.
  assert (Ha : In a out) by (subst out; apply in_elt).
  assert (Hb : In b out).
  { subst out. apply in_or_app. right. right. apply in_elt. }
  pose proof (distance_meters_error p rows out a Hrun Ha) as Hea.
  pose proof (distance_meters_error p rows out b Hrun Hb) as Heb.
  assert (Hab : (distance_meters a <= distance_meters b)%Q).
  { subst out. clear -Hs. induction l1 as [|x l1 IH]; simpl in Hs.
    - apply StronglySorted_inv in Hs as [_ Hall].
      apply Forall_app in Hall as [_ Hall].
      apply Forall_cons_1 in Hall as [Hle _]. exact Hle.
    - apply StronglySorted_inv in Hs as [Hs _]. exact (IH Hs). }
  apply Qabs_Qle_condition in Hea as [Ha1 Ha2].
  apply Qabs_Qle_condition in Heb as [Hb1 Hb2].
  lra.
Qed.

Lemma order_within_centimetre_witness :
  (raw_of (15, 0)%Q
     (AreaInfo 1 "OUTSIDE" (Band 12 14) "FRA3" "Third" "Rivers" (Some "Unknown") None)
   <= raw_of (15, 0)%Q
        (AreaInfo 5 "OUTSIDE" (Band 0 10) "FRA1" "First" "Surface Water"
           (Some "Unknown") None) + 0.01)%Q.
Proof.
  eapply (order_within_centimetre (15, 0)%Q equidistant_rows _
            [AreaInfo 0 "OUTSIDE" (Band 15 20) "FRA2" "Second" "Surface Water"
               (Some "Unknown") None] [] []).
  - vm_compute. reflexivity.
  - reflexivity.
Defined.

Lemma iterrows_geometry {G : Type} `{Geometry G} (p : point) (rows : list (row G)) :
  forall acc out,
    iterrows p rows acc = Ok out ->
    map geometry out = (map geometry acc ++ map row_geometry rows)%list.
Proof.
  induction rows as [|area rest IH]; intros acc out Hrun; simpl in Hrun.
  - injection Hrun as <-. simpl. rewrite app_nil_r. reflexivity.
  - destruct (area_info_of p (length acc) area) as [info|e] eqn:E; [| discriminate].
    apply IH in Hrun. rewrite Hrun, map_app. simpl.
    apply area_info_of_fields in E as (_ & _ & ->).
    rewrite <- app_assoc. reflexivity.
Qed.

(** The evaluator returns one result per row of the dataset: the
    polygons of the results are the polygons of the rows, rearranged. *)
Theorem one_result_per_row
    {G : Type} `{Geometry G} (p : point) (rows : list (row G)) (out : list (area_info G)) :
  calculate_distance_to_flood_areas (Some p) (Some rows) = Ok out ->
  Permutation (map row_geometry rows) (map geometry out)
  /\ length out = length rows.
Proof.
  intros Hrun. split; [| exact (calculate_length p rows out Hrun)].
  rewrite calculate_some in Hrun.
  destruct (iterrows p rows []) as [pre|] eqn:E; [| discriminate].
  injection Hrun as <-.
  apply iterrows_geometry in E. simpl in E. rewrite <- E.
  apply Permutation_map, sort_key_perm.
Qed.

Lemma one_result_per_row_witness :
  exists out,
    calculate_distance_to_flood_areas (Some (20, 0)%Q) (Some seven_rows) = Ok out
    /\ length out = 7%nat.
Proof.
  eexists. split; [vm_compute; reflexivity |].
  apply (one_result_per_row (20, 0)%Q seven_rows). vm_compute. reflexivity.
Defined.

Lemma area_info_of_raises {G : Type} `{Geometry G} (p : point) (n : nat) (area : row G) :
  complete_schema area = false ->
  area_info_of p n area = Raise (KeyError "fra_name")
  \/ area_info_of p n area = Raise (KeyError "flood_sour").
Proof.
  unfold complete_schema, area_info_of. intros Hc.
  destruct (has_column "fra_id" area) eqn:E1; [| discriminate].
  simpl in Hc. destruct (has_column_getitem _ _ E1) as [v1 ->].
  destruct (has_column "fra_name" area) eqn:E2.
  - simpl in Hc. destruct (has_column_getitem _ _ E2) as [v2 ->].
    rewrite (has_column_false _ _ Hc). right. reflexivity.
  - rewrite (has_column_false _ _ E2). left. reflexivity.
Qed.

Lemma iterrows_raises {G : Type} `{Geometry G} (p : point) (rows : list (row G)) :
  forallb complete_schema rows = false ->
  forall acc,
    iterrows p rows acc = Raise (KeyError "fra_name")
    \/ iterrows p rows acc = Raise (KeyError "flood_sour").
Proof.
  induction rows as [|area rest IH]; intros Hc acc; [discriminate |].
  simpl in Hc. simpl iterrows.
  destruct (complete_schema area) eqn:Ea.
  - destruct (area_info_of_total p (length acc) area Ea) as [info ->].
    apply IH. exact Hc.
  - destruct (area_info_of_raises p (length acc) area Ea) as [-> | ->]; auto.
Qed.

(** A dataset with a row that has ['fra_id'] without ['fra_name'] or
    ['flood_sour'] never yields a list of results, wherever the row
    stands, and a [KeyError] raised on it names one of these two columns.
    So a returned list means that every row is complete. *)
Theorem incomplete_row_never_returns
    {G : Type} `{Geometry G} (p : point) (rows : list (row G)) :
  forallb complete_schema rows = false ->
  (forall out, calculate_distance_to_flood_areas (Some p) (Some rows) <> Ok out)
  /\ (forall key,
        calculate_distance_to_flood_areas (Some p) (Some rows) = Raise (KeyError key) ->
        key = "fra_name" \/ key = "flood_sour").
Proof.
  intros Hc. rewrite calculate_some.
  destruct (iterrows_raises p rows Hc []) as [-> | ->]; simpl; split;
    try discriminate; intros key [= <-]; auto.
Qed.

Lemma incomplete_row_never_returns_witness :
  calculate_distance_to_flood_areas (Some (5, 0)%Q)
    (Some [fra_row 0 10 "FRA1" "A" "Surface Water"; partial_fra_row 20 30])
  <> Ok [].
Proof.
  apply (incomplete_row_never_returns (5, 0)%Q
           [fra_row 0 10 "FRA1" "A" "Surface Water"; partial_fra_row 20 30]).
  reflexivity.
Defined.

Lemma synthesized_id_inj (b1 b2 : bool) (i j : nat) :
  (if b1 then "Rivers_Sea_" else "Area_") ++ str_of_nat i
  = (if b2 then "Rivers_Sea_" else "Area_") ++ str_of_nat j ->
  i = j.
Proof.
  destruct b1, b2; intros Hs; cbv [String.append] in Hs;
    try discriminate; apply str_of_nat_inj; congruence.
Qed.

(** A row without ['fra_id'] gets an identifier made of its schema's
    prefix and its position in the dataset, so that two such rows never
    share an identifier. *)
Theorem synthesized_ids_positional
    {G : Type} `{Geometry G} (p : point) (rows : list (row G)) (out : list (area_info G))
    (i : nat) (area : row G) :
  calculate_distance_to_flood_areas (Some p) (Some rows) = Ok out ->
  rows !! i = Some area ->
  has_column "fra_id" area = false ->
  let prefix_of (r : row G) :=
    if has_column "prob_4band" r then "Rivers_Sea_" else "Area_" in
  (exists info,
     In info out
     /\ geometry info = row_geometry area
     /\ area_id info = prefix_of area ++ str_of_nat i)
  /\ (forall j area',
        rows !! j = Some area' -> has_column "fra_id" area' = false ->
        prefix_of area ++ str_of_nat i = prefix_of area' ++ str_of_nat j ->
        i = j).
Proof.
  intros Hrun Hi Hfra prefix_of. split.
  - rewrite calculate_some in Hrun.
    destruct (iterrows p rows []) as [pre|] eqn:E; [| discriminate].
    injection Hrun as <-.
    apply iterrows_spec in E as (new & Hnew & _ & Hrows). simpl in Hnew. subst new.
    destruct (Hrows i area Hi) as (info & Hl & Hinfo). simpl in Hinfo.
    exists info. split.
    + eapply Permutation_in; [apply sort_key_perm |].
      apply list_elem_of_In. eapply list_elem_of_lookup_2, Hl.
    + pose proof (area_info_of_fields p i area info Hinfo) as (_ & _ & Hg).
      pose proof (area_info_of_priority p i area info Hinfo) as (_ & Hp & Hb).
      split; [exact Hg |]. unfold prefix_of.
      destruct (has_column "prob_4band" area).
      * apply (Hp Hfra eq_refl).
      * apply (Hb Hfra eq_refl).
  - intros j area' _ _. unfold prefix_of. apply synthesized_id_inj.
Qed.

Lemma synthesized_ids_positional_witness :
  exists out info,
    calculate_distance_to_flood_areas (Some (20, 0)%Q) (Some seven_rows) = Ok out
    /\ In info out
    /\ area_id info = "Rivers_Sea_2".
Proof.
  assert (Hrun : exists out,
             calculate_distance_to_flood_areas (Some (20, 0)%Q) (Some seven_rows) = Ok out)
    by (eexists; vm_compute; reflexivity).
  destruct Hrun as [out Hrun]. exists out.
  destruct (synthesized_ids_positional (20, 0)%Q seven_rows out 2
              (prob_row 60 70 "High") Hrun eq_refl eq_refl)
    as [(info & Hin & _ & Hid) _].
  exists info. split; [exact Hrun |]. split; [exact Hin | exact Hid].
Defined.

(** ** Assessment aggregator: what a category reports *)

Lemma StronglySorted_filter {A : Type} (R : A -> A -> Prop) (f : A -> bool) (l : list A) :
  StronglySorted R l -> StronglySorted R (List.filter f l).
Proof.
  induction 1 as [|x l Hs IH Hx]; simpl; [constructor |].
  destruct (f x); [| exact IH].
  constructor; [exact IH |].
  apply List.Forall_forall. intros y Hy. apply List.filter_In in Hy as [Hy _].
  revert y Hy. apply List.Forall_forall. exact Hx.
Qed.

(** Over a sorted list, a category reports the number of its areas and,
    as nearest distance, the least of their distances. *)
Lemma assess_category_minimum {G : Type} (areas : list (area_info G)) :
  StronglySorted (key_le distance_meters) areas ->
  areas_count (assess_category areas) = length areas
  /\ match closest_distance (assess_category areas) with
     | Some d =>
         (exists info, In info areas /\ distance_meters info = d)
         /\ (forall info, In info areas -> (d <= distance_meters info)%Q)
     | None => areas = []
     end.
Proof.
  intros Hs. destruct areas as [|c rest]; simpl; [auto |].
  split; [reflexivity |]. split.
  - exists c. auto.
  - intros info [<- | Hin]; [apply Qle_refl |].
    apply StronglySorted_inv in Hs as [_ Hall].
    revert info Hin. apply List.Forall_forall. exact Hall.
Qed.

(** For a loaded dataset, each category counts the results whose source
    label matches it and reports the least of their rounded distances; it
    reports no distance exactly when no result matches. *)
Theorem closest_is_minimum
    {G : Type} `{Geometry G} {R : Type} (api : point -> R)
    (self : checker G) (p : point) (rows : list (row G)) (a : assessment G R) :
  fra_data self = Some rows ->
  assess_comprehensive_flood_risk api self (Some p) = Ok (Filled a) ->
  exists all,
    calculate_distance_to_flood_areas (Some p) (Some rows) = Ok all
    /\ areas_count (surface_water a) = length (List.filter is_surface all)
    /\ areas_count (rivers_and_sea a) = length (List.filter is_rivers all)
    /\ match closest_distance (surface_water a) with
       | Some d =>
           (exists info, In info all /\ is_surface info = true /\ distance_meters info = d)
           /\ (forall info, In info all -> is_surface info = true ->
                 (d <= distance_meters info)%Q)
       | None => List.filter is_surface all = []
       end
    /\ match closest_distance (rivers_and_sea a) with
       | Some d =>
           (exists info, In info all /\ is_rivers info = true /\ distance_meters info = d)
           /\ (forall info, In info all -> is_rivers info = true ->
                 (d <= distance_meters info)%Q)
       | None => List.filter is_rivers all = []
       end.
Proof.
  intros Hd Hrun.
  destruct (assess_loaded_inv api self p rows a Hd Hrun) as (all & Hall & Hsw & Hrs & _).
  exists all. split; [exact Hall |].
  pose proof (calculate_sorted p rows all Hall) as Hs.
  assert (Hcat : forall f : area_info G -> bool,
             areas_count (assess_category (List.filter f all))
             = length (List.filter f all)
             /\ match closest_distance (assess_category (List.filter f all)) with
                | Some d =>
                    (exists info, In info all /\ f info = true /\ distance_meters info = d)
                    /\ (forall info, In info all -> f info = true ->
                          (d <= distance_meters info)%Q)
                | None => List.filter f all = []
                end).
  { intros f.
    destruct (assess_category_minimum (List.filter f all)
                (StronglySorted_filter _ f all Hs)) as [Hn Hmin].
    split; [exact Hn |].
    destruct (closest_distance (assess_category (List.filter f all))) as [d|];
      [| exact Hmin].
    destruct Hmin as [(info & Hin & Hdi) Hle]. split.
    - apply List.filter_In in Hin as [Hin Hf]. exists info. auto.
    - intros info' Hin' Hf'. apply Hle. apply List.filter_In. auto. }
  rewrite Hsw, Hrs.
  destruct (Hcat is_surface) as [Hn1 Hm1]. destruct (Hcat is_rivers) as [Hn2 Hm2].
  auto.
Qed.

Lemma closest_is_minimum_witness :
  exists a : assessment band string,
    assess_comprehensive_flood_risk no_reservoir (Checker (Some seven_rows) None)
      (Some (20, 0)%Q) = Ok (Filled a)
    /\ areas_count (rivers_and_sea a) = 3%nat.
Proof.
  assert (Hrun : exists a : assessment band string,
             assess_comprehensive_flood_risk no_reservoir (Checker (Some seven_rows) None)
               (Some (20, 0)%Q) = Ok (Filled a))
    by (eexists; vm_compute; reflexivity).
  destruct Hrun as [a Hrun]. exists a. split; [exact Hrun |].
  destruct (closest_is_minimum no_reservoir (Checker (Some seven_rows) None)
              (20, 0)%Q seven_rows a eq_refl Hrun) as (all & Hall & _ & Hn & _).
  rewrite Hn. vm_compute in Hall. injection Hall as <-. vm_compute. reflexivity.
Defined.

(** A category is reported HIGH only when the point lies inside a polygon
    of the dataset whose result belongs to that category. *)
Theorem high_is_sound
    {G : Type} `{Geometry G} {R : Type} (api : point -> R)
    (self : checker G) (p : point) (rows : list (row G)) (a : assessment G R) :
  fra_data self = Some rows ->
  assess_comprehensive_flood_risk api self (Some p) = Ok (Filled a) ->
  exists all,
    calculate_distance_to_flood_areas (Some p) (Some rows) = Ok all
    /\ (risk_level (surface_water a) = "HIGH" ->
          exists area info,
            In area rows /\ In info all /\ geometry info = row_geometry area
            /\ is_surface info = true /\ contains (row_geometry area) p = true)
    /\ (risk_level (rivers_and_sea a) = "HIGH" ->
          exists area info,
            In area rows /\ In info all /\ geometry info = row_geometry area
            /\ is_rivers info = true /\ contains (row_geometry area) p = true).
Proof.
  intros Hd Hrun.
  destruct (assess_loaded_inv api self p rows a Hd Hrun) as (all & Hall & Hsw & Hrs & _).
  exists all. split; [exact Hall |].
  assert (Hcat : forall f : area_info G -> bool,
             risk_level (assess_category (List.filter f all)) = "HIGH" ->
             exists area info,
               In area rows /\ In info all /\ geometry info = row_geometry area
               /\ f info = true /\ contains (row_geometry area) p = true).
  { intros f Hhigh.
    destruct (List.filter f all) as [|c rest] eqn:Hf; [discriminate |].
    assert (Hin : In c (List.filter f all)) by (rewrite Hf; left; reflexivity).
    apply List.filter_In in Hin as [Hin Hfc].
    destruct (calculate_elements p rows all Hall c Hin) as (area & Ha & Hg & _ & Hst).
    exists area, c. repeat split; try assumption.
    simpl in Hhigh. unfold _categorize_risk_from_distance in Hhigh. rewrite Hst in Hhigh.
    destruct (contains (row_geometry area) p); [reflexivity |].
    simpl in Hhigh.
    destruct (Qle_bool (distance_meters c) 100);
      [| destruct (Qle_bool (distance_meters c) 500)]; discriminate. }
  rewrite Hsw, Hrs. split; apply Hcat.
Qed.

Lemma high_is_sound_witness :
  exists area : row band, In area seven_rows /\ contains (row_geometry area) (5, 0)%Q = true.
Proof.
  assert (Hrun : exists a : assessment band string,
             assess_comprehensive_flood_risk no_reservoir (Checker (Some seven_rows) None)
               (Some (5, 0)%Q) = Ok (Filled a)
             /\ risk_level (surface_water a) = "HIGH")
    by (eexists; split; vm_compute; reflexivity).
  destruct Hrun as (a & Hrun & Hhigh).
  destruct (high_is_sound no_reservoir (Checker (Some seven_rows) None)
              (5, 0)%Q seven_rows a eq_refl Hrun) as (all & _ & Hsw & _).
  destruct (Hsw Hhigh) as (area & _ & Hin & _ & _ & _ & Hc).
  exists area. split; [exact Hin | exact Hc].
Defined.

(** ** Assessment aggregator: failure, pass-through, future band *)

(** With a point and a loaded dataset that has a row with ['fra_id']
    but without ['fra_name'] or ['flood_sour'], the aggregator returns no
    dictionary at all: no category, no reservoir entry, no nearest areas.
    A [KeyError] it raises names one of these two columns.  So a filled
    dictionary means that the dataset is missing or every row is
    complete. *)
Theorem incomplete_dataset_fails_assessment
    {G : Type} `{Geometry G} {R : Type} (api : point -> R)
    (self : checker G) (p : point) (rows : list (row G)) :
  fra_data self = Some rows ->
  forallb complete_schema rows = false ->
  (forall c, assess_comprehensive_flood_risk api self (Some p) <> Ok c)
  /\ (forall key,
        assess_comprehensive_flood_risk api self (Some p) = Raise (KeyError key) ->
        key = "fra_name" \/ key = "flood_sour").
Proof.
  intros Hd Hc. rewrite (assess_loaded api self p rows Hd), calculate_some.
  destruct (iterrows_raises p rows Hc []) as [-> | ->]; simpl; split;
    try discriminate; intros key [= <-]; auto.
Qed.

Lemma incomplete_dataset_fails_assessment_witness :
  assess_comprehensive_flood_risk no_reservoir
    (Checker (Some [fra_row 0 10 "FRA1" "A" "Surface Water"; partial_fra_row 20 30]) None)
    (Some (5, 0)%Q)
  <> Ok EmptyDict.
Proof.
  apply (incomplete_dataset_fails_assessment no_reservoir
           (Checker (Some [fra_row 0 10 "FRA1" "A" "Surface Water"; partial_fra_row 20 30])
              None)
           (5, 0)%Q
           [fra_row 0 10 "FRA1" "A" "Surface Water"; partial_fra_row 20 30]);
    reflexivity.
Defined.

(** Whatever the dataset, a filled dictionary carries the point it was
    asked about, the reservoir API's answer for that point unchanged, the
    groundwater placeholder, and at most five nearest areas. *)
Theorem assess_passthrough
    {G : Type} `{Geometry G} {R : Type} (api : point -> R)
    (self : checker G) (p : point) (a : assessment G R) :
  assess_comprehensive_flood_risk api self (Some p) = Ok (Filled a) ->
  coordinates a = p
  /\ reservoirs a = api p
  /\ groundwater a = NotAvailable "DATA NOT AVAILABLE" "Requires BGS data"
  /\ (length (nearest_areas a) <= 5)%nat.
Proof.
  destruct (fra_data self) as [rows|] eqn:Hd.
  - rewrite (assess_loaded api self p rows Hd).
    destruct (calculate_distance_to_flood_areas (Some p) (Some rows)) as [all|e];
      [| discriminate].
    intros [= <-]. simpl. repeat split. rewrite length_firstn. lia.
  - rewrite (assess_missing api self p Hd). intros [= <-]. simpl.
    repeat split. lia.
Qed.

Lemma assess_passthrough_witness :
  exists a : assessment band string,
    assess_comprehensive_flood_risk no_reservoir (Checker (Some seven_rows) None)
      (Some (20, 0)%Q) = Ok (Filled a)
    /\ reservoirs a = "VERY LOW".
Proof.
  assert (Hrun : exists a : assessment band string,
             assess_comprehensive_flood_risk no_reservoir (Checker (Some seven_rows) None)
               (Some (20, 0)%Q) = Ok (Filled a))
    by (eexists; vm_compute; reflexivity).
  destruct Hrun as [a Hrun]. exists a. split; [exact Hrun |].
  destruct (assess_passthrough no_reservoir (Checker (Some seven_rows) None)
              (20, 0)%Q a Hrun) as (_ & Hres & _).
  exact Hres.
Defined.

Lemma assess_category_future_band {G : Type} (areas : list (area_info G)) :
  yearly_chance_2040s (assess_category areas)
  = Some "Less than 1 in 1000 (0.1%) - may increase slightly"
  <-> areas = [].
Proof.
  split; [| intros ->; reflexivity].
  destruct areas as [|c rest]; [reflexivity |].
  simpl. unfold _categorize_risk_from_distance.
  destruct (String.eqb (risk_status c) "INSIDE");
    [| destruct (Qle_bool (distance_meters c) 100);
       [| destruct (Qle_bool (distance_meters c) 500)]];
    vm_compute; discriminate.
Qed.

(** In an assessment over a loaded dataset, a category shows the future
    band ["Less than 1 in 1000 (0.1%) - may increase slightly"] exactly
    when no result of the evaluator belongs to it: with an area, even in
    the VERY LOW tier, the band ends in ["due to climate change"].  Over a
    missing dataset a category shows no future band at all. *)
Theorem future_band_without_areas
    {G : Type} `{Geometry G} {R : Type} (api : point -> R)
    (self : checker G) (p : point) (a : assessment G R) :
  assess_comprehensive_flood_risk api self (Some p) = Ok (Filled a) ->
  match fra_data self with
  | Some rows =>
      exists all,
        calculate_distance_to_flood_areas (Some p) (Some rows) = Ok all
        /\ (yearly_chance_2040s (surface_water a)
            = Some "Less than 1 in 1000 (0.1%) - may increase slightly"
            <-> List.filter is_surface all = [])
        /\ (yearly_chance_2040s (rivers_and_sea a)
            = Some "Less than 1 in 1000 (0.1%) - may increase slightly"
            <-> List.filter is_rivers all = [])
  | None =>
      yearly_chance_2040s (surface_water a) = None
      /\ yearly_chance_2040s (rivers_and_sea a) = None
  end.
Proof.
  intros Hrun. destruct (fra_data self) as [rows|] eqn:Hd.
  - destruct (assess_loaded_inv api self p rows a Hd Hrun)
      as (all & Hall & Hsw & Hrs & _).
    exists all. rewrite Hsw, Hrs.
    split; [exact Hall |]. split; apply assess_category_future_band.
  - rewrite (assess_missing api self p Hd) in Hrun. injection Hrun as <-.
    split; reflexivity.
Qed.

Lemma future_band_without_areas_witness :
  exists a : assessment band string,
    assess_comprehensive_flood_risk no_reservoir
      (Checker (Some [fra_row 0 10 "FRA1" "A" "Rivers"]) None) (Some (2000, 0)%Q)
    = Ok (Filled a)
    /\ yearly_chance_2040s (surface_water a)
       = Some "Less than 1 in 1000 (0.1%) - may increase slightly"
    /\ yearly_chance_2040s (rivers_and_sea a)
       <> Some "Less than 1 in 1000 (0.1%) - may increase slightly".
Proof.
  assert (Hrun : exists a : assessment band string,
             assess_comprehensive_flood_risk no_reservoir
               (Checker (Some [fra_row 0 10 "FRA1" "A" "Rivers"]) None) (Some (2000, 0)%Q)
             = Ok (Filled a))
    by (eexists; vm_compute; reflexivity).
  destruct Hrun as [a Hrun]. exists a. split; [exact Hrun |].
  pose proof (future_band_without_areas no_reservoir
                (Checker (Some [fra_row 0 10 "FRA1" "A" "Rivers"]) None)
                (2000, 0)%Q a Hrun) as Hband.
  simpl in Hband. destruct Hband as (all & Hall & Hsw & Hrs).
  vm_compute in Hall. injection Hall as <-. split.
  - apply Hsw. reflexivity.
  - intros Hno. apply Hrs in Hno. discriminate Hno.
Defined.

(** ** Reservoir API *)

Section ReservoirFacts.
Import Reservoir.
Variable requests_get : request -> attempt response.
Variable lower : string -> string.
Variable str : py_error -> string.

Lemma collect_areas_length (features : list json) (acc out : list reservoir_area) :
  collect_areas features acc = Done out ->
  length out = (length acc + length features)%nat.
Proof.
  revert acc. induction features as [|f rest IH]; intros acc; simpl.
  - intros [= <-]. lia.
  - destruct (py_get "properties" (JObj []) f) as [props|e]; [| discriminate]. simpl.
    destruct (py_get "reservoir_name" (JStr "Unknown Reservoir") props) as [n|e];
      [| discriminate]. simpl.
    destruct (py_get "flood_type" (JStr "Reservoir Failure") props) as [t|e];
      [| discriminate]. simpl.
    destruct (py_get "scenario" (JStr "Worst Case") props) as [s|e];
      [| discriminate]. simpl.
    intros Hrec. rewrite (IH _ Hrec), length_app. simpl. lia.
Qed.

(** A dictionary returned by the features query comes from a response
    with status 200 whose body is a dict with a non-empty list of
    features, and has one entry per feature. *)
Lemma query_features_some (bbox : Q * Q * Q * Q) (cid : json) (r : reservoir_dict) :
  query_features requests_get bbox cid = Done (Some r) ->
  exists resp members features areas,
    requests_get (GetItems cid bbox 10) = Done resp
    /\ status_code resp = 200%Z
    /\ body resp = Some (JObj members)
    /\ assoc "features" members = Some (JArr features)
    /\ features <> []
    /\ length areas = length features
    /\ r = within_area areas.
Proof.
  unfold query_features.
  destruct (requests_get (GetItems cid bbox 10)) as [resp|e] eqn:Hget; [| discriminate].
  simpl. destruct (status_code resp =? 200)%Z eqn:Hst; [| discriminate].
  apply Z.eqb_eq in Hst. unfold response_json.
  destruct (body resp) as [data|] eqn:Hbody; [| discriminate]. simpl.
  destruct data as [| b | q | s | items | members]; simpl; try discriminate.
  - destruct (substring_in "features" s); simpl; discriminate.
  - destruct (existsb _ items); simpl; discriminate.
  - destruct (assoc "features" members) as [fs|] eqn:Hfs; simpl; [| discriminate].
    destruct fs as [| b | q | s | features | kv]; simpl; try discriminate.
    + destruct s as [|c s]; simpl; discriminate.
    + destruct features as [|f rest]; [simpl; discriminate |].
      cbn [length Nat.ltb Nat.leb mbind attempt_bind].
      destruct (collect_areas (f :: rest) []) as [areas|e] eqn:Hc; [| discriminate].
      pose proof (collect_areas_length _ _ _ Hc) as Hlen.
      destruct areas as [|a areas]; [discriminate |].
      intros [= <-].
      exists resp, members, (f :: rest), (a :: areas).
      split; [reflexivity |]. split; [exact Hst |]. split; [exact Hbody |].
      split; [exact Hfs |]. split; [discriminate |]. split; [exact Hlen | reflexivity].
    + destruct kv as [|[k v] kv]; simpl; discriminate.
Qed.

(** What the body of the [try] statement returns when it raises nothing:
    the no-areas dictionary, the status of a refused collections request,
    or the areas of a features response. *)
Lemma try_body_done (bbox : Q * Q * Q * Q) (r : reservoir_dict) :
  try_body requests_get lower bbox = Done r ->
  r = no_areas_found
  \/ (exists resp,
        requests_get GetCollections = Done resp
        /\ status_code resp <> 200%Z
        /\ r = data_unavailable ("API returned status " ++ str_of_Z (status_code resp)))
  \/ (exists cid resp members features areas,
        requests_get (GetItems cid bbox 10) = Done resp
        /\ status_code resp = 200%Z
        /\ body resp = Some (JObj members)
        /\ assoc "features" members = Some (JArr features)
        /\ features <> []
        /\ length areas = length features
        /\ r = within_area areas).
Proof.
  unfold try_body.
  destruct (requests_get GetCollections) as [resp|e] eqn:Hget; [| discriminate].
  cbn [mbind attempt_bind].
  destruct (status_code resp =? 200)%Z eqn:Hst.
  2:{ intros [= <-]. right; left. exists resp. apply Z.eqb_neq in Hst. auto. }
  destruct (response_json resp) as [data|e]; [| discriminate].
  cbn [mbind attempt_bind].
  destruct (py_in "collections" data) as [[|]|e]; [ | | discriminate];
    cbn [mbind attempt_bind].
  2:{ intros [= <-]. left. reflexivity. }
  destruct (py_getitem "collections" data) as [cs|e]; [| discriminate].
  cbn [mbind attempt_bind].
  destruct (py_iter cs) as [collections|e]; [| discriminate].
  cbn [mbind attempt_bind].
  destruct (select_collections lower collections []) as [[|first rc]|e];
    [ | | discriminate]; cbn [mbind attempt_bind].
  { intros [= <-]. left; reflexivity. }
  destruct (py_getitem "id" first) as [cid|e]; [| discriminate].
  cbn [mbind attempt_bind].
  destruct (query_features requests_get bbox cid) as [[r'|]|e] eqn:Hq;
    [ | | discriminate]; cbn [mbind attempt_bind].
  - intros [= <-]. right; right. exists cid. apply query_features_some. exact Hq.
  - intros [= <-]. left; reflexivity.
Qed.

(** With coordinates, the function returns one of three dictionaries. *)
Lemma check_forms (p : point) :
  let r := check_reservoir_risk_api requests_get lower str (Some p) in
  r = no_areas_found
  \/ (exists areas, areas <> [] /\ r = within_area areas)
  \/ (exists why, r = data_unavailable why).
Proof.
  cbv zeta. unfold check_reservoir_risk_api.
  destruct (try_body requests_get lower (bbox_of p)) as [r|e] eqn:Hbody.
  - destruct (try_body_done _ _ Hbody)
      as [-> | [(resp & _ & _ & ->) | (cid & resp & members & features & areas
                                         & _ & _ & _ & _ & Hne & Hlen & ->)]].
    + left; reflexivity.
    + right; right. eexists; reflexivity.
    + right; left. exists areas. split; [| reflexivity].
      intros ->. apply Hne. destruct features; [reflexivity | discriminate].
  - right; right. destruct e; eexists; reflexivity.
Qed.

Lemma lowered_title_titled (collection : json) :
  if titled collection
  then exists t, lowered_title lower collection = Done t
  else lowered_title lower collection = Throws AttributeError.
Proof.
  unfold titled, lowered_title.
  destruct collection as [| b | q | s | items | members]; try reflexivity.
  simpl. destruct (assoc "title" members) as [[| b | q | s | items | kv]|];
    try reflexivity; eexists; reflexivity.
Qed.

(** One entry that is not a dict, or whose title is not a string, makes
    the selection loop raise, whatever the other entries are. *)
Lemma select_collections_untitled (collections acc : list json) :
  forallb titled collections = false ->
  select_collections lower collections acc = Throws AttributeError.
Proof.
  revert acc. induction collections as [|c rest IH]; intros acc; [discriminate |].
  simpl forallb. pose proof (lowered_title_titled c) as Ht.
  destruct (titled c); simpl andb; intros Hrest.
  - destruct Ht as [t Ht]. simpl. rewrite Ht. cbn [mbind attempt_bind].
    destruct (substring_in "reservoir" t); cbn [mbind attempt_bind];
      apply IH; exact Hrest.
  - simpl. rewrite Ht. reflexivity.
Qed.

(** The body of the [try] statement looks at the network only through
    the collections request and the features query. *)
Lemma try_body_ext (get1 get2 : request -> attempt response) (bbox : Q * Q * Q * Q) :
  get1 GetCollections = get2 GetCollections ->
  (forall cid, query_features get1 bbox cid = query_features get2 bbox cid) ->
  try_body get1 lower bbox = try_body get2 lower bbox.
Proof.
  intros Hc Hq. unfold try_body. rewrite Hc.
  destruct (get2 GetCollections) as [resp|e]; [| reflexivity].
  cbn [mbind attempt_bind].
  destruct (status_code resp =? 200)%Z; [| reflexivity].
  destruct (response_json resp) as [data|e]; [| reflexivity].
  cbn [mbind attempt_bind].
  destruct (py_in "collections" data) as [[|]|e]; try reflexivity.
  cbn [mbind attempt_bind].
  destruct (py_getitem "collections" data) as [cs|e]; [| reflexivity].
  cbn [mbind attempt_bind].
  destruct (py_iter cs) as [collections|e]; [| reflexivity].
  cbn [mbind attempt_bind].
  destruct (select_collections lower collections []) as [[|first rc]|e];
    try reflexivity.
  cbn [mbind attempt_bind].
  destruct (py_getitem "id" first) as [cid|e]; [| reflexivity].
  cbn [mbind attempt_bind]. rewrite Hq. reflexivity.
Qed.
End ReservoirFacts.

(** MEDIUM is reported only from a features response with status 200
    that lists at least one feature for the 200 m box around the point,
    and the number of areas is the number of listed features: no feature
    is tested against the point, and the count is not capped by the
    requested limit. *)
Theorem reservoir_medium_counts_features
    (requests_get : Reservoir.request -> Reservoir.attempt Reservoir.response)
    (lower : string -> string) (str : Reservoir.py_error -> string) (p : point) :
  let r := Reservoir.check_reservoir_risk_api requests_get lower str (Some p) in
  Reservoir.risk_level r = "MEDIUM" ->
  exists cid resp members features areas,
    requests_get (Reservoir.GetItems cid (Reservoir.bbox_of p) 10) = Reservoir.Done resp
    /\ Reservoir.status_code resp = 200%Z
    /\ Reservoir.body resp = Some (Reservoir.JObj members)
    /\ Reservoir.assoc "features" members = Some (Reservoir.JArr features)
    /\ features <> []
    /\ Reservoir.areas_count r = Some (length features)
    /\ Reservoir.reservoirs r = Some areas
    /\ length areas = length features.
Proof.
  cbv zeta. unfold Reservoir.check_reservoir_risk_api.
  destruct (Reservoir.try_body requests_get lower (Reservoir.bbox_of p))
    as [r|e] eqn:Hbody.
  - destruct (try_body_done _ _ _ _ Hbody)
      as [-> | [(resp & _ & _ & ->) | (cid & resp & members & features & areas
                                         & Hget & Hst & Hb & Hfs & Hne & Hlen & ->)]];
      [discriminate | discriminate |].
    intros _. exists cid, resp, members, features, areas.
    simpl. rewrite Hlen. auto 10.
  - destruct e; discriminate.
Qed.

Lemma reservoir_medium_counts_features_witness :
  Reservoir.areas_count
    (Reservoir.check_reservoir_risk_api Reservoir.sample_server Reservoir.lower_ascii
       Reservoir.error_text (Some (430000, 450000)%Q))
  = Some 2%nat.
Proof.
  destruct (reservoir_medium_counts_features Reservoir.sample_server Reservoir.lower_ascii
              Reservoir.error_text (430000, 450000)%Q eq_refl)
    as (cid & resp & members & features & areas & Hget & _ & Hb & Hfs & _ & Hn & _).
  simpl in Hget. injection Hget as <-.
  simpl in Hb. injection Hb as <-.
  simpl in Hfs. injection Hfs as <-.
  exact Hn.
Defined.

(** In an assessment, the reservoir entry is never the no-coordinates
    dictionary: it is the no-areas dictionary, a MEDIUM dictionary with at
    least one area, or a DATA UNAVAILABLE dictionary with a reason. *)
Theorem reservoir_entry_in_assessment
    {G : Type} `{Geometry G}
    (requests_get : Reservoir.request -> Reservoir.attempt Reservoir.response)
    (lower : string -> string) (str : Reservoir.py_error -> string)
    (self : checker G) (p : point) (a : assessment G Reservoir.reservoir_dict) :
  assess_comprehensive_flood_risk
    (fun q => Reservoir.check_reservoir_risk_api requests_get lower str (Some q))
    self (Some p) = Ok (Filled a) ->
  Reservoir.risk_level (reservoirs a) <> "UNKNOWN"
  /\ (reservoirs a = Reservoir.no_areas_found
      \/ (exists areas, areas <> [] /\ reservoirs a = Reservoir.within_area areas)
      \/ (exists why, reservoirs a = Reservoir.data_unavailable why)).
Proof.
  intros Hrun.
  assert (Hres : reservoirs a
                 = Reservoir.check_reservoir_risk_api requests_get lower str (Some p)).
  { destruct (fra_data self) as [rows|] eqn:Hd.
    - rewrite (assess_loaded _ self p rows Hd) in Hrun.
      destruct (calculate_distance_to_flood_areas (Some p) (Some rows)) as [all|e];
        [| discriminate].
      injection Hrun as <-. reflexivity.
    - rewrite (assess_missing _ self p Hd) in Hrun. injection Hrun as <-. reflexivity. }
  pose proof (check_forms requests_get lower str p) as Hforms. cbv zeta in Hforms.
  rewrite <- Hres in Hforms. split; [| exact Hforms].
  destruct Hforms as [-> | [(areas & _ & ->) | (why & ->)]]; discriminate.
Qed.

Lemma reservoir_entry_in_assessment_witness :
  exists a : assessment band Reservoir.reservoir_dict,
    assess_comprehensive_flood_risk
      (fun q => Reservoir.check_reservoir_risk_api Reservoir.sample_server
                  Reservoir.lower_ascii Reservoir.error_text (Some q))
      (Checker (Some seven_rows) None) (Some (20, 0)%Q) = Ok (Filled a)
    /\ Reservoir.risk_level (reservoirs a) <> "UNKNOWN".
Proof.
  assert (Hrun : exists a : assessment band Reservoir.reservoir_dict,
             assess_comprehensive_flood_risk
               (fun q => Reservoir.check_reservoir_risk_api Reservoir.sample_server
                           Reservoir.lower_ascii Reservoir.error_text (Some q))
               (Checker (Some seven_rows) None) (Some (20, 0)%Q) = Ok (Filled a))
    by (eexists; vm_compute; reflexivity).
  destruct Hrun as [a Hrun]. exists a. split; [exact Hrun |].
  destruct (reservoir_entry_in_assessment Reservoir.sample_server Reservoir.lower_ascii
              Reservoir.error_text (Checker (Some seven_rows) None) (20, 0)%Q a Hrun)
    as [Hne _].
  exact Hne.
Defined.

Lemma reservoir_medium_helper
    (requests_get : Reservoir.request -> Reservoir.attempt Reservoir.response)
    (lower : string -> string) (str : Reservoir.py_error -> string) (p : point) :
  Reservoir.risk_level (Reservoir.check_reservoir_risk_api requests_get lower str (Some p))
  = "MEDIUM" ->
  exists cid resp,
    requests_get (Reservoir.GetItems cid (Reservoir.bbox_of p) 10) = Reservoir.Done resp
    /\ Reservoir.status_code resp = 200%Z.
Proof.
  unfold Reservoir.check_reservoir_risk_api.
  destruct (Reservoir.try_body requests_get lower (Reservoir.bbox_of p))
    as [r|e] eqn:Hbody.
  - destruct (try_body_done _ _ _ _ Hbody)
      as [-> | [(resp & _ & _ & ->) | (cid & resp & members & features & areas
                                         & Hget & Hst & _)]];
      [discriminate | discriminate |].
    intros _. exists cid, resp. auto.
  - destruct e; discriminate.
Qed.

Lemma query_features_refused
    (requests_get : Reservoir.request -> Reservoir.attempt Reservoir.response)
    (bbox : Q * Q * Q * Q) (cid : Reservoir.json) (resp : Reservoir.response) :
  requests_get (Reservoir.GetItems cid bbox 10) = Reservoir.Done resp ->
  Reservoir.status_code resp <> 200%Z ->
  Reservoir.query_features requests_get bbox cid = Reservoir.Done None.
Proof.
  intros Hget Hst. unfold Reservoir.query_features. rewrite Hget.
  cbn [mbind Reservoir.attempt_bind].
  apply Z.eqb_neq in Hst. rewrite Hst. reflexivity.
Qed.

(** A features request that the server refuses, whatever its status, is
    not told apart from one that finds nothing: the function returns what
    it returns for an empty list of features, and never MEDIUM. *)
Theorem reservoir_refused_query_reads_as_empty
    (get1 get2 : Reservoir.request -> Reservoir.attempt Reservoir.response)
    (lower : string -> string) (str : Reservoir.py_error -> string) (p : point) :
  get1 Reservoir.GetCollections = get2 Reservoir.GetCollections ->
  (forall cid, exists resp,
      get1 (Reservoir.GetItems cid (Reservoir.bbox_of p) 10) = Reservoir.Done resp
      /\ Reservoir.status_code resp <> 200%Z) ->
  (forall cid,
      get2 (Reservoir.GetItems cid (Reservoir.bbox_of p) 10)
      = Reservoir.Done
          (Reservoir.Response 200
             (Some (Reservoir.JObj [("features", Reservoir.JArr [])])))) ->
  Reservoir.check_reservoir_risk_api get1 lower str (Some p)
  = Reservoir.check_reservoir_risk_api get2 lower str (Some p)
  /\ Reservoir.risk_level (Reservoir.check_reservoir_risk_api get1 lower str (Some p))
     <> "MEDIUM".
Proof.
  intros Hc H1 H2.
  assert (Hq1 : forall cid,
             Reservoir.query_features get1 (Reservoir.bbox_of p) cid = Reservoir.Done None).
  { intros cid. destruct (H1 cid) as (resp & Hget & Hst).
    exact (query_features_refused get1 _ cid resp Hget Hst). }
  assert (Hq2 : forall cid,
             Reservoir.query_features get2 (Reservoir.bbox_of p) cid = Reservoir.Done None).
  { intros cid. unfold Reservoir.query_features. rewrite (H2 cid). reflexivity. }
  split.
  - unfold Reservoir.check_reservoir_risk_api.
    rewrite (try_body_ext lower get1 get2 (Reservoir.bbox_of p) Hc); [reflexivity |].
    intros cid. rewrite Hq1, Hq2. reflexivity.
  - intros Hm.
    destruct (reservoir_medium_helper get1 lower str p Hm)
      as (cid & resp & Hget & Hst).
    destruct (H1 cid) as (resp' & Hget' & Hst').
    rewrite Hget in Hget'. injection Hget' as <-. contradiction.
Qed.

Lemma reservoir_refused_query_reads_as_empty_witness :
  Reservoir.check_reservoir_risk_api Reservoir.failing_items_server Reservoir.lower_ascii
    Reservoir.error_text (Some (430000, 450000)%Q)
  = Reservoir.check_reservoir_risk_api Reservoir.empty_items_server Reservoir.lower_ascii
      Reservoir.error_text (Some (430000, 450000)%Q).
Proof.
  apply (reservoir_refused_query_reads_as_empty
           Reservoir.failing_items_server Reservoir.empty_items_server
           Reservoir.lower_ascii Reservoir.error_text (430000, 450000)%Q).
  - reflexivity.
  - intros cid. exists (Reservoir.Response 503 None). split; [reflexivity | discriminate].
  - intros cid. reflexivity.
Defined.

(** When the collection list has an entry that is not a dict, or whose
    title is not a string, the function reports DATA UNAVAILABLE with the
    text of an [AttributeError], also when a reservoir collection is
    listed before it. *)
Theorem reservoir_untitled_entry_unavailable
    (requests_get : Reservoir.request -> Reservoir.attempt Reservoir.response)
    (lower : string -> string) (str : Reservoir.py_error -> string) (p : point)
    (members : list (string * Reservoir.json)) (collections : list Reservoir.json) :
  requests_get Reservoir.GetCollections
  = Reservoir.Done (Reservoir.Response 200 (Some (Reservoir.JObj members))) ->
  Reservoir.assoc "collections" members = Some (Reservoir.JArr collections) ->
  forallb Reservoir.titled collections = false ->
  Reservoir.check_reservoir_risk_api requests_get lower str (Some p)
  = Reservoir.data_unavailable ("API error: " ++ str Reservoir.AttributeError).
Proof.
  intros Hget Hcs Hbad.
  unfold Reservoir.check_reservoir_risk_api, Reservoir.try_body.
  rewrite Hget. cbn [mbind Reservoir.attempt_bind Reservoir.status_code Z.eqb Pos.eqb].
  unfold Reservoir.response_json, Reservoir.py_in, Reservoir.py_getitem.
  cbn [Reservoir.body mbind Reservoir.attempt_bind]. rewrite Hcs.
  cbn [mbind Reservoir.attempt_bind Reservoir.py_iter].
  rewrite (select_collections_untitled lower collections [] Hbad).
  reflexivity.
Qed.

Lemma reservoir_untitled_entry_unavailable_witness :
  Reservoir.check_reservoir_risk_api Reservoir.untitled_entry_server Reservoir.lower_ascii
    Reservoir.error_text (Some (430000, 450000)%Q)
  = Reservoir.data_unavailable "API error: AttributeError".
Proof.
  apply (reservoir_untitled_entry_unavailable Reservoir.untitled_entry_server
           Reservoir.lower_ascii Reservoir.error_text (430000, 450000)%Q
           [("collections",
             Reservoir.JArr
               [Reservoir.JObj [("id", Reservoir.JStr "reservoir-extents");
                                ("title", Reservoir.JStr "Reservoir Flood Extents")];
                Reservoir.JObj [("id", Reservoir.JStr "draft");
                                ("title", Reservoir.JNull)]])]
           [Reservoir.JObj [("id", Reservoir.JStr "reservoir-extents");
                            ("title", Reservoir.JStr "Reservoir Flood Extents")];
            Reservoir.JObj [("id", Reservoir.JStr "draft"); ("title", Reservoir.JNull)]]);
    reflexivity.
Defined.

(** ** Postcode lookup *)

(** The lookup returns coordinates exactly when the request succeeds
    with status 200 and a body that is a dict whose ['status'] equals 200
    and whose ['result'] is a dict with ['eastings'] and ['northings'];
    it then returns these two values as they are, whatever they are.  In
    every other case, also when something raises, it returns nothing. *)
Theorem postcode_coordinates_exact
    (requests_get : string -> Reservoir.attempt Reservoir.response)
    (normalize : string -> string) (postcode : string)
    (easting northing : Reservoir.json) :
  postcode_to_coordinates requests_get normalize postcode = Some (easting, northing)
  <-> exists resp members status result,
        requests_get ("https://api.postcodes.io/postcodes/" ++ normalize postcode)
        = Reservoir.Done resp
        /\ Reservoir.status_code resp = 200%Z
        /\ Reservoir.body resp = Some (Reservoir.JObj members)
        /\ Reservoir.assoc "status" members = Some status
        /\ equals_200 status = true
        /\ Reservoir.assoc "result" members = Some (Reservoir.JObj result)
        /\ Reservoir.assoc "eastings" result = Some easting
        /\ Reservoir.assoc "northings" result = Some northing.
Proof.
  unfold postcode_to_coordinates. cbv zeta. split.
  - destruct (requests_get _) as [resp|e] eqn:Hget; [| discriminate].
    cbn [mbind Reservoir.attempt_bind].
    destruct (Reservoir.status_code resp =? 200)%Z eqn:Hst; [| discriminate].
    apply Z.eqb_eq in Hst. unfold Reservoir.response_json.
    destruct (Reservoir.body resp) as [data|] eqn:Hb; [| discriminate].
    cbn [mbind Reservoir.attempt_bind].
    destruct data as [| b | q | s | items | members];
      cbn [mbind Reservoir.attempt_bind Reservoir.py_getitem]; try discriminate.
    destruct (Reservoir.assoc "status" members) as [status|] eqn:Hs;
      cbn [mbind Reservoir.attempt_bind]; [| discriminate].
    destruct (equals_200 status) eqn:H200; [| discriminate].
    destruct (Reservoir.assoc "result" members) as [result|] eqn:Hr;
      cbn [mbind Reservoir.attempt_bind]; [| discriminate].
    destruct result as [| b | q | s | items | result];
      cbn [mbind Reservoir.attempt_bind Reservoir.py_getitem]; try discriminate.
    destruct (Reservoir.assoc "eastings" result) as [e|] eqn:He;
      cbn [mbind Reservoir.attempt_bind]; [| discriminate].
    destruct (Reservoir.assoc "northings" result) as [n|] eqn:Hn;
      cbn [mbind Reservoir.attempt_bind]; [| discriminate].
    intros [= <- <-]. exists resp, members, status, result. auto 10.
  - intros (resp & members & status & result & Hget & Hst & Hb & Hs & H200 & Hr & He & Hn).
    rewrite Hget. cbn [mbind Reservoir.attempt_bind].
    rewrite Hst. cbn [Z.eqb Pos.eqb]. unfold Reservoir.response_json. rewrite Hb.
    cbn [mbind Reservoir.attempt_bind Reservoir.py_getitem]. rewrite Hs.
    cbn [mbind Reservoir.attempt_bind]. rewrite H200, Hr.
    cbn [mbind Reservoir.attempt_bind Reservoir.py_getitem]. rewrite He.
    cbn [mbind Reservoir.attempt_bind]. rewrite Hn. reflexivity.
Qed.

(** A postcode that the service knows without a grid reference comes
    back as a pair of nulls, not as nothing. *)
Example postcode_without_grid_reference :
  postcode_to_coordinates sample_lookup (fun s => s) "JE11AA"
  = Some (Reservoir.JNull, Reservoir.JNull)
  /\ postcode_to_coordinates sample_lookup (fun s => s) "LS208HL"
     = Some (Reservoir.JNum 419000, Reservoir.JNum 444000)
  /\ postcode_to_coordinates sample_lookup (fun s => s) "XX" = None.
Proof. repeat split; vm_compute; reflexivity. Qed.
